(** * Fulfilment request processor: dispatch and outcome mapping

    A shallow embedding of [app/product_fulfillment.py] (class
    [ProductFulfillment]).  Python values coming from the vendor API are
    JSON-like values, vendor results are dictionaries, and the handlers run
    in a small monad that threads the log of calls made to the external
    collaborators (credential lookup, vendor API, marketplace platform,
    template lookup) and propagates Python exceptions. *)

From Stdlib Require Import ZArith Ascii String.
From stdpp Require Import gmap strings list.

(** ** Python values *)

Local Unset Elimination Schemes.

Inductive pyval : Type :=
| VNone
| VBool (b : bool)
| VInt (z : Z)
| VStr (s : string)
| VDateTime (t : Z)
| VList (l : list pyval)
| VDict (d : gmap string pyval).

Local Set Elimination Schemes.

Abbreviation pydict := (gmap string pyval).

(** The name [type(v).__name__] shown in interpreter error messages. *)
Definition type_name (v : pyval) : string :=
  match v with
  | VNone => "NoneType"
  | VBool _ => "bool"
  | VInt _ => "int"
  | VStr _ => "str"
  | VDateTime _ => "datetime.datetime"
  | VList _ => "list"
  | VDict _ => "dict"
  end.

(** Truth value of an object, as tested by [if v:]. *)
Definition truthy (v : pyval) : bool :=
  match v with
  | VNone => false
  | VBool b => b
  | VInt z => negb (z =? 0)%Z
  | VStr s => match s with EmptyString => false | String _ _ => true end
  | VDateTime _ => true
  | VList l => match l with [] => false | _ :: _ => true end
  | VDict d => negb (size d =? 0)%nat
  end.

(** [v is None] *)
Definition is_None (v : pyval) : bool :=
  match v with VNone => true | _ => false end.

(** [v == 'literal'] *)
Definition py_eq_str (v : pyval) (lit : string) : bool :=
  match v with VStr s => bool_decide (s = lit) | _ => false end.

(** ** Exceptions and results

    [SkipRequest] and [FailRequest] are the two marketplace outcomes of
    [connect.exceptions]; they carry their [message] attribute.
    Every other exception class deriving from [Exception] is a [PyError]
    with its class name and its single argument. *)
Inductive exn : Type :=
| SkipRequest (message : pyval)
| FailRequest (message : pyval)
| PyError (cls : string) (arg : pyval).

Inductive result (A : Type) : Type :=
| Ok (a : A)
| Raise (e : exn).
Arguments Ok {A} a.
Arguments Raise {A} e.

(** The constructors of [connect.exceptions]: [SkipRequest(message)] keeps
    [message or 'Request skipped'] and [FailRequest(message)] keeps
    [message or 'Request failed'].  They matter where the message is a value
    of the vendor result, which can be empty or missing; the texts built
    from the constants of [Message] are taken as they are. *)
Definition skip_request (message : pyval) : exn :=
  SkipRequest (if truthy message then message else VStr "Request skipped").

Definition fail_request (message : pyval) : exn :=
  FailRequest (if truthy message then message else VStr "Request failed").

Definition dquote : string := String (ascii_of_nat 34) EmptyString.

(** [d[k]] on a dictionary *)
Definition dict_getitem (d : pydict) (k : string) : result pyval :=
  match d !! k with
  | Some v => Ok v
  | None => Raise (PyError "KeyError" (VStr k))
  end.

(** [k in d] on a dictionary *)
Definition dict_contains (d : pydict) (k : string) : bool :=
  match d !! k with Some _ => true | None => false end.

(** [v[0]] *)
Definition py_getitem_0 (v : pyval) : result pyval :=
  match v with
  | VList l =>
      match l with
      | x :: _ => Ok x
      | [] => Raise (PyError "IndexError" (VStr "list index out of range"))
      end
  | VStr s =>
      match s with
      | String c _ => Ok (VStr (String c EmptyString))
      | EmptyString => Raise (PyError "IndexError" (VStr "string index out of range"))
      end
  | VDict _ => Raise (PyError "KeyError" (VInt 0))
  | _ => Raise (PyError "TypeError"
                  (VStr ("'" +:+ type_name v +:+ "' object is not subscriptable")))
  end.

Definition no_attribute (v : pyval) (attr : string) : exn :=
  PyError "AttributeError"
    (VStr ("'" +:+ type_name v +:+ "' object has no attribute '" +:+ attr +:+ "'")).

(** [v.get(k)] *)
Definition py_get (v : pyval) (k : string) : result pyval :=
  match v with
  | VDict d => Ok (default VNone (d !! k))
  | _ => Raise (no_attribute v "get")
  end.

Definition ascii_lower (c : ascii) : ascii :=
  let n := nat_of_ascii c in
  if (65 <=? n)%nat && (n <=? 90)%nat then ascii_of_nat (n + 32) else c.

(** [str.lower] on the ASCII letters; strings are byte strings here, and no
    character outside ASCII lowers to a letter of ['success']. *)
Fixpoint py_lower (s : string) : string :=
  match s with
  | EmptyString => EmptyString
  | String c s' => String (ascii_lower c) (py_lower s')
  end.

(** [v.lower()] *)
Definition py_lower_method (v : pyval) : result pyval :=
  match v with
  | VStr s => Ok (VStr (py_lower s))
  | _ => Raise (no_attribute v "lower")
  end.

(** [len(v)] *)
Definition py_len (v : pyval) : result nat :=
  match v with
  | VStr s => Ok (String.length s)
  | VList l => Ok (length l)
  | VDict d => Ok (size d)
  | _ => Raise (PyError "TypeError"
                  (VStr ("object of type '" +:+ type_name v +:+ "' has no len()")))
  end.

(** ['prefix' + v]: only the exception matters, the sum is a log line. *)
Definition str_concat_check (v : pyval) : result unit :=
  match v with
  | VStr _ => Ok tt
  | _ => Raise (PyError "TypeError"
                  (VStr ("can only concatenate str (not " +:+ dquote +:+ type_name v
                         +:+ dquote +:+ ") to str")))
  end.

(** ** Requests (the fields of [connect.models.Fulfillment] read here) *)

Record Param : Type := { param_id : string; param_value : pyval }.

Record Item : Type := { quantity : Z; old_quantity : Z }.

Record Asset : Type := {
  asset_id : string;
  external_id : string;
  params : list Param;
  items : list Item;
  configuration : pyval;
  connection_type : string
}.

Record Fulfillment : Type := {
  req_id : string;
  req_type : string;
  asset : Asset;
  marketplace_id : string
}.

Record ActivationTemplateResponse : Type := { template_id : pyval }.

(** [asset.get_param_by_id(id)]: the first parameter with that id, or [None]. *)
Definition get_param_by_id (a : Asset) (id : string) : option Param :=
  List.find (fun p => bool_decide (param_id p = id)) (params a).

(** [asset.get_param_by_id(id).value] *)
Definition get_param_value (a : Asset) (id : string) : result pyval :=
  match get_param_by_id a id with
  | Some p => Ok (param_value p)
  | None => Raise (no_attribute VNone "value")
  end.

(** ** Calls to the collaborators *)

Inductive vendor_op : Type :=
| CreateSubscription
| ChangeSubscription
| CancelSubscription
| SuspendSubscription
| ResumeSubscription.

Inductive event : Type :=
| EvGetCredentials (marketplace : string) (config : pyval) (conn : string)
| EvVendorCall (op : vendor_op) (data : pyval) (subscriptionId : option pyval)
| EvUpdateParameters (request : string) (ps : list Param)
| EvGetActivationTemplate (config : pyval) (marketplace : string) (template_type : string).

Definition is_vendor_call (e : event) : bool :=
  match e with EvVendorCall _ _ _ => true | _ => false end.

(** The modules of the application that the handlers import: [Utils],
    [APIClient], [Message], [Globals], the [update_parameters] method of
    the automation object, [datetime.now] and the builtin [repr]. *)
Record Collaborators : Type := {
  get_credentials : string -> pyval -> string -> result pyval;
  create_subscription : pyval -> pyval -> result pydict;
  change_subscription : pyval -> pyval -> pyval -> result pydict;
  cancel_subscription : pyval -> pyval -> pyval -> result pydict;
  suspend_subscription : pyval -> pyval -> pyval -> result pydict;
  resume_subscription : pyval -> pyval -> pyval -> result pydict;
  update_parameters : string -> list Param -> result unit;
  get_activation_template : pyval -> string -> string -> result pyval;
  get_status_code : pydict -> result pyval;
  is_downsize_request : list Item -> bool;
  datetime_now : Z;
  py_repr : pyval -> string;
  NOT_ALLOWED_DOWNSIZE : string;
  ACTIVATING_TEMPLATE_ERROR : string -> string;
  EMPTY_ACTIVATION_TILE : string -> string
}.

(** Modelled from the spec: [Utils.is_downsize_request] is not part of the
    sources at hand; the downsize guard holds when some line item's
    requested quantity is strictly less than its provisioned quantity. *)
Definition spec_is_downsize_request (its : list Item) : bool :=
  existsb (fun it => (quantity it <? old_quantity it)%Z) its.

(** ** The handler monad: exceptions over a log of collaborator calls *)

Definition M (A : Type) : Type := list event -> result A * list event.

Definition ret {A} (a : A) : M A := fun tr => (Ok a, tr).

Definition raise {A} (e : exn) : M A := fun tr => (Raise e, tr).

Definition bind {A B} (m : M A) (k : A -> M B) : M B :=
  fun tr =>
    match m tr with
    | (Ok a, tr') => k a tr'
    | (Raise e, tr') => (Raise e, tr')
    end.

Definition lift {A} (r : result A) : M A := fun tr => (r, tr).

(** A call to a collaborator: logged, then its answer or its exception. *)
Definition call {A} (ev : event) (r : result A) : M A :=
  fun tr => (r, tr ++ [ev]).

(** [try: body  except ... as e: handler e] *)
Definition try_except {A} (body : M A) (handler : exn -> M A) : M A :=
  fun tr =>
    match body tr with
    | (Ok a, tr') => (Ok a, tr')
    | (Raise e, tr') => handler e tr'
    end.

Notation "'let*' x ':=' e 'in' k" := (bind e (fun x => k))
  (at level 10, x name, e at level 100, k at level 200).

(** ** The class [ProductFulfillment]

    Calls to [logger] are not part of the log of collaborator calls; where
    the argument of such a call concatenates a vendor value to a string,
    the concatenation is kept because it can raise. *)

Section ProductFulfillment.

Variable E : Collaborators.

(** [str(v)]: a string is itself, every other value prints as its [repr]. *)
Definition py_str (v : pyval) : string :=
  match v with VStr s => s | _ => py_repr E v end.

(** [str(ex)], [ex.message] for the two marketplace exceptions. *)
Definition str_exn (ex : exn) : string :=
  match ex with
  | SkipRequest m | FailRequest m => py_str m
  | PyError cls a => if bool_decide (cls = "KeyError") then py_repr E a else py_str a
  end.

(** [Utils.get_credentials(req.marketplace.id, req.asset.configuration,
    req.asset.connection.type)] *)
Definition credentials_of (req : Fulfillment) : M pyval :=
  let a := asset req in
  call (EvGetCredentials (marketplace_id req) (configuration a) (connection_type a))
       (get_credentials E (marketplace_id req) (configuration a) (connection_type a)).

(** [automation.update_parameters(req.id, params)] *)
Definition automation_update_parameters (req : Fulfillment) (ps : list Param) : M unit :=
  call (EvUpdateParameters (req_id req) ps) (update_parameters E (req_id req) ps).

(** [info['errors'][0].get(field)] *)
Definition first_error_get (info : pydict) (field : string) : M pyval :=
  let* errors := lift (dict_getitem info "errors") in
  let* first := lift (py_getitem_0 errors) in
  lift (py_get first field).

(** [info['errors'][0].get('errorCode') is None
     or info['errors'][0].get('errorCode') == 'UNKNOWN_ERROR'] *)
Definition error_code_is_unknown (info : pydict) : M bool :=
  let* code := first_error_get info "errorCode" in
  if is_None code then ret true
  else
    let* code' := first_error_get info "errorCode" in
    ret (py_eq_str code' "UNKNOWN_ERROR").

Definition _parse_subscription (req : Fulfillment) : M pyval := ret (VDict ∅).

Definition _parse_cancel (req : Fulfillment) : M pyval := ret (VDict ∅).

Definition _parse_suspend (req : Fulfillment) : M pyval := ret (VDict ∅).

Definition _parse_resume (req : Fulfillment) : M pyval := ret (VDict ∅).

Definition activate_template (req : Fulfillment) (template_type : string)
  : M ActivationTemplateResponse :=
  let cfg := configuration (asset req) in
  let* tid :=
    call (EvGetActivationTemplate cfg (marketplace_id req) template_type)
         (get_activation_template E cfg (marketplace_id req) template_type) in
  let activation_response := {| template_id := tid |} in
  let* n := lift (py_len (template_id activation_response)) in
  if (n =? 0)%nat then
    raise (SkipRequest (VStr (EMPTY_ACTIVATION_TILE E (marketplace_id req))))
  else ret activation_response.

Definition _create_subscription (req : Fulfillment) : M pydict :=
  try_except
    (let* data := _parse_subscription req in
     let* credentials := credentials_of req in
     let* subscription_info :=
       call (EvVendorCall CreateSubscription data None)
            (create_subscription E credentials data) in
     let* tenant := lift (dict_getitem subscription_info "tenantId") in
     if truthy tenant then
       let* tenant' := lift (dict_getitem subscription_info "tenantId") in
       let ps := [ {| param_id := "subscriptionId"; param_value := tenant' |} ] in
       let* _ := automation_update_parameters req ps in
       ret subscription_info
     else
       let* unknown := error_code_is_unknown subscription_info in
       if unknown then
         let* logged := first_error_get subscription_info "errorMessage" in
         let* _ := lift (str_concat_check logged) in
         let* msg := first_error_get subscription_info "errorMessage" in
         raise (skip_request msg)
       else
         let* msg := first_error_get subscription_info "errorMessage" in
         raise (fail_request msg))
    (fun err =>
       match err with
       | FailRequest _ => raise err
       | _ => raise err
       end).

Definition purchase (req : Fulfillment) : M ActivationTemplateResponse :=
  let* subscription_info := _create_subscription req in
  try_except
    (activate_template req "activationTemplate")
    (fun ex =>
       match ex with
       | SkipRequest _ => raise ex
       | FailRequest message =>
           raise (SkipRequest (VStr (ACTIVATING_TEMPLATE_ERROR E (py_str message))))
       | PyError _ _ =>
           raise (SkipRequest (VStr (ACTIVATING_TEMPLATE_ERROR E (str_exn ex))))
       end).

Definition check_if_downsize (req : Fulfillment) : M unit :=
  if is_downsize_request E (items (asset req)) then
    raise (FailRequest (VStr (NOT_ALLOWED_DOWNSIZE E)))
  else ret tt.

Definition _check_update_response (operation_result : pydict) (req : Fulfillment)
  : M unit :=
  let* code := lift (get_status_code E operation_result) in
  let* lowered := lift (py_lower_method code) in
  if py_eq_str lowered "success" then
    let now := VDateTime (datetime_now E) in
    let ps := [ {| param_id := "creationDate"; param_value := now |} ] in
    automation_update_parameters req ps
  else if dict_contains operation_result "errors" then
    let* unknown := error_code_is_unknown operation_result in
    if unknown then
      let* logged := first_error_get operation_result "errorMessage" in
      let* msg := first_error_get operation_result "errorMessage" in
      raise (skip_request msg)
    else
      let* logged := first_error_get operation_result "errorMessage" in
      let* _ := lift (str_concat_check logged) in
      let* msg := first_error_get operation_result "errorMessage" in
      raise (fail_request msg)
  else if dict_contains operation_result "error" then
    let* logged := lift (dict_getitem operation_result "error") in
    let* raw := lift (dict_getitem operation_result "error") in
    raise (PyError "Exception" raw)
  else ret tt.

Definition _change_subscription (req : Fulfillment) : M unit :=
  try_except
    (let* subscriptionId := lift (get_param_value (asset req) "subscriptionId") in
     let* data := _parse_subscription req in
     let* credentials := credentials_of req in
     let* operation_result :=
       call (EvVendorCall ChangeSubscription data (Some subscriptionId))
            (change_subscription E credentials data subscriptionId) in
     _check_update_response operation_result req)
    (fun err =>
       match err with
       | FailRequest _ => raise err
       | _ => raise err
       end).

Definition change (req : Fulfillment) : M ActivationTemplateResponse :=
  let* _ := check_if_downsize req in
  let* _ := _change_subscription req in
  try_except
    (activate_template req "activationTemplate")
    (fun ex =>
       match ex with
       | SkipRequest _ => raise ex
       | FailRequest message =>
           raise (SkipRequest (VStr (ACTIVATING_TEMPLATE_ERROR E (py_str message))))
       | PyError _ _ =>
           raise (SkipRequest (VStr (ACTIVATING_TEMPLATE_ERROR E (str_exn ex))))
       end).

Definition _cancel_subscription (req : Fulfillment) : M pydict :=
  try_except
    (let* subscriptionId := lift (get_param_value (asset req) "subscriptionId") in
     let* data := _parse_cancel req in
     let* credentials := credentials_of req in
     let* operation_result :=
       call (EvVendorCall CancelSubscription data (Some subscriptionId))
            (cancel_subscription E credentials data subscriptionId) in
     ret operation_result)
    (fun err =>
       match err with
       | FailRequest _ => raise err
       | _ => raise err
       end).

Definition cancel (req : Fulfillment) : M ActivationTemplateResponse :=
  let* cancelled_subscription := _cancel_subscription req in
  try_except
    (activate_template req "suspendSubscriptionTemplate")
    (fun ex =>
       match ex with
       | SkipRequest _ => raise ex
       | FailRequest message =>
           raise (SkipRequest (VStr (ACTIVATING_TEMPLATE_ERROR E (py_str message))))
       | PyError _ _ =>
           raise (SkipRequest (VStr (ACTIVATING_TEMPLATE_ERROR E (str_exn ex))))
       end).

Definition _suspend_subscription (req : Fulfillment) : M pydict :=
  try_except
    (let* subscriptionId := lift (get_param_value (asset req) "subscriptionId") in
     let* data := _parse_suspend req in
     let* credentials := credentials_of req in
     let* operation_result :=
       call (EvVendorCall SuspendSubscription data (Some subscriptionId))
            (suspend_subscription E credentials data subscriptionId) in
     ret operation_result)
    (fun err =>
       match err with
       | FailRequest _ => raise err
       | _ => raise err
       end).

Definition suspend (req : Fulfillment) : M ActivationTemplateResponse :=
  let* suspended_subscription := _suspend_subscription req in
  try_except
    (activate_template req "suspendSubscriptionTemplate")
    (fun ex =>
       match ex with
       | SkipRequest _ => raise ex
       | FailRequest message =>
           raise (SkipRequest (VStr (ACTIVATING_TEMPLATE_ERROR E (py_str message))))
       | PyError _ _ =>
           raise (SkipRequest (VStr (ACTIVATING_TEMPLATE_ERROR E (str_exn ex))))
       end).

Definition _resume_subscription (req : Fulfillment) : M pydict :=
  try_except
    (let* subscriptionId := lift (get_param_value (asset req) "subscriptionId") in
     let* data := _parse_resume req in
     let* credentials := credentials_of req in
     let* operation_result :=
       call (EvVendorCall ResumeSubscription data (Some subscriptionId))
            (resume_subscription E credentials data subscriptionId) in
     ret operation_result)
    (fun err =>
       match err with
       | FailRequest _ => raise err
       | _ => raise err
       end).

Definition resume (req : Fulfillment) : M ActivationTemplateResponse :=
  let* resumed_subscription := _resume_subscription req in
  try_except
    (activate_template req "activationTemplate")
    (fun ex =>
       match ex with
       | SkipRequest _ => raise ex
       | FailRequest message =>
           raise (SkipRequest (VStr (ACTIVATING_TEMPLATE_ERROR E (py_str message))))
       | PyError _ _ =>
           raise (SkipRequest (VStr (ACTIVATING_TEMPLATE_ERROR E (str_exn ex))))
       end).

(** A handler's return value as the return value of [process_request];
    [None] is Python's [None], returned when no branch is taken. *)
Definition returning (h : M ActivationTemplateResponse)
  : M (option ActivationTemplateResponse) :=
  let* response := h in ret (Some response).

Definition process_request (req : Fulfillment)
  : M (option ActivationTemplateResponse) :=
  try_except
    (if bool_decide (req_type req = "purchase") then returning (purchase req)
     else if bool_decide (req_type req = "change") then returning (change req)
     else if bool_decide (req_type req = "suspend") then returning (suspend req)
     else if bool_decide (req_type req = "resume") then returning (resume req)
     else if bool_decide (req_type req = "cancel") then returning (cancel req)
     else ret None)
    (fun err =>
       match err with
       | SkipRequest _ => raise err
       | FailRequest _ => raise err
       | PyError _ _ => raise err
       end).

End ProductFulfillment.

(** ** Vocabulary of the statements *)

Section Vocabulary.

Variable E : Collaborators.
Variable req : Fulfillment.

(** The entry carries no [errorCode], a null one, or ["UNKNOWN_ERROR"]. *)
Definition code_unknown (e : pydict) : Prop :=
  e !! "errorCode" = None \/ e !! "errorCode" = Some VNone
  \/ e !! "errorCode" = Some (VStr "UNKNOWN_ERROR").

(** The entry carries an [errorCode] that is neither null nor ["UNKNOWN_ERROR"]. *)
Definition code_named (e : pydict) : Prop :=
  exists c, e !! "errorCode" = Some c /\ c <> VNone /\ c <> VStr "UNKNOWN_ERROR".

(** The two collaborator calls every purchase makes before it reads the
    vendor result. *)
Definition create_calls : list event :=
  [ EvGetCredentials (marketplace_id req) (configuration (asset req))
                     (connection_type (asset req));
    EvVendorCall CreateSubscription (VDict ∅) None ].

(** The collaborator calls of a change up to the vendor answer. *)
Definition change_calls (subscriptionId : pyval) : list event :=
  [ EvGetCredentials (marketplace_id req) (configuration (asset req))
                     (connection_type (asset req));
    EvVendorCall ChangeSubscription (VDict ∅) (Some subscriptionId) ].

(** The [try] block around [activate_template], the same in the five
    handlers. *)
Definition guarded_activation (kind : string) : M ActivationTemplateResponse :=
  try_except
    (activate_template E req kind)
    (fun ex =>
       match ex with
       | SkipRequest _ => raise ex
       | FailRequest message =>
           raise (SkipRequest (VStr (ACTIVATING_TEMPLATE_ERROR E (py_str E message))))
       | PyError _ _ =>
           raise (SkipRequest (VStr (ACTIVATING_TEMPLATE_ERROR E (str_exn E ex))))
       end).

Definition template_lookup (kind : string) : event :=
  EvGetActivationTemplate (configuration (asset req)) (marketplace_id req) kind.

(** What the block yields, read off the answer of the template lookup. *)
Definition activation_outcome (kind : string) : result ActivationTemplateResponse :=
  match get_activation_template E (configuration (asset req)) (marketplace_id req) kind with
  | Ok tid =>
      match py_len tid with
      | Ok O => Raise (SkipRequest (VStr (EMPTY_ACTIVATION_TILE E (marketplace_id req))))
      | Ok (S _) => Ok {| template_id := tid |}
      | Raise ex =>
          Raise (SkipRequest (VStr (ACTIVATING_TEMPLATE_ERROR E (str_exn E ex))))
      end
  | Raise (SkipRequest m) => Raise (SkipRequest m)
  | Raise (FailRequest m) =>
      Raise (SkipRequest (VStr (ACTIVATING_TEMPLATE_ERROR E (py_str E m))))
  | Raise (PyError c a) =>
      Raise (SkipRequest (VStr (ACTIVATING_TEMPLATE_ERROR E (str_exn E (PyError c a)))))
  end.

(** What a handler does before its activation step, as one computation, and
    the template kind the step then resolves; [None] when the request type
    has no handler. *)
Definition provisioning : option (M unit * string) :=
  if bool_decide (req_type req = "purchase") then
    Some (let* _ := _create_subscription E req in ret tt, "activationTemplate")
  else if bool_decide (req_type req = "change") then
    Some (let* _ := check_if_downsize E req in _change_subscription E req,
          "activationTemplate")
  else if bool_decide (req_type req = "suspend") then
    Some (let* _ := _suspend_subscription E req in ret tt,
          "suspendSubscriptionTemplate")
  else if bool_decide (req_type req = "resume") then
    Some (let* _ := _resume_subscription E req in ret tt, "activationTemplate")
  else if bool_decide (req_type req = "cancel") then
    Some (let* _ := _cancel_subscription E req in ret tt,
          "suspendSubscriptionTemplate")
  else None.

End Vocabulary.

(** ** A sample set of collaborators, to run the handlers on concrete inputs *)

Module Sample.

Definition repr (v : pyval) : string :=
  match v with
  | VNone => "None"
  | VBool true => "True"
  | VBool false => "False"
  | _ => "<" +:+ type_name v +:+ ">"
  end.

(** The vendor answers every operation with [vendor]; the template configured
    for a kind is [templates kind]; the status code of a result is its
    ["statusCode"] entry, the empty string when there is none. *)
Definition collaborators (vendor : pydict) (templates : string -> result pyval)
  : Collaborators :=
  {| get_credentials := fun _ _ _ => Ok (VStr "api-key");
     create_subscription := fun _ _ => Ok vendor;
     change_subscription := fun _ _ _ => Ok vendor;
     cancel_subscription := fun _ _ _ => Ok vendor;
     suspend_subscription := fun _ _ _ => Ok vendor;
     resume_subscription := fun _ _ _ => Ok vendor;
     update_parameters := fun _ _ => Ok tt;
     get_activation_template := fun _ _ kind => templates kind;
     get_status_code := fun r => Ok (default (VStr "") (r !! "statusCode"));
     is_downsize_request := spec_is_downsize_request;
     datetime_now := 1700000000;
     py_repr := repr;
     NOT_ALLOWED_DOWNSIZE := "not allowed downsize";
     ACTIVATING_TEMPLATE_ERROR := fun d => "Error activating the template: " +:+ d;
     EMPTY_ACTIVATION_TILE := fun m => "Empty activation template for marketplace " +:+ m |}.

Definition all_templates : string -> result pyval := fun _ => Ok (VStr "TL-001").

Definition request (type : string) (its : list Item) : Fulfillment :=
  {| req_id := "PR-1";
     req_type := type;
     asset := {| asset_id := "AS-1";
                 external_id := "ext-1";
                 params := [ {| param_id := "subscriptionId"; param_value := VStr "T1" |} ];
                 items := its;
                 configuration := VDict ∅;
                 connection_type := "production" |};
     marketplace_id := "MP-1" |}.

(** [{errors: [{errorCode: code, errorMessage: msg}]}] *)
Definition structured_error (code msg : string) : pydict :=
  {[ "errors" := VList [ VDict {[ "errorCode" := VStr code; "errorMessage" := VStr msg ]} ] ]}.

End Sample.

(** ** Concrete vendor results and requests *)

Module Scenario.

(** A failed create or change whose result names no success:
    [{tenantId: "", statusCode: "FAILED", errors: [{errorCode: code,
    errorMessage: msg}]}]. *)
Definition entry (code msg : string) : pydict :=
  {[ "errorCode" := VStr code; "errorMessage" := VStr msg ]}.

Definition failed (code msg : string) : pydict :=
  <[ "tenantId" := VStr "" ]>
    (<[ "statusCode" := VStr "FAILED" ]>
       {[ "errors" := VList [ VDict (entry code msg) ] ]}).

Definition purchase_request : Fulfillment := Sample.request "purchase" [].

Definition change_request : Fulfillment := Sample.request "change" [].

Definition cancel_request : Fulfillment := Sample.request "cancel" [].

Definition suspend_request : Fulfillment := Sample.request "suspend" [].

End Scenario.

(** ** [check_order_parameters]

    The validation of the ordering parameter [customer_admin_email]; its
    call in [purchase] is commented out.  It returns nothing: its outcome is
    falling off the end, raising [InquireRequest(error_msg, params)], or
    another exception. *)

Inductive order_outcome : Type :=
| Returned
| InquireRequest (error_msg : string) (ps : list Param)
| Raised (e : exn).

Section OrderParameters.

(** [re.search(regex, email)] as a truth value, for the pattern fixed in the
    function; the [re] module is a collaborator. *)
Variable re_search : pyval -> result bool.

(** [hasattr(p, 'value')] for [p] the result of [get_param_by_id]: a
    [Param] has the attribute, [None] has not. *)
Definition hasattr_value (p : option Param) : bool :=
  match p with Some _ => true | None => false end.

(** The locals [params] and [error_msg] after the [if email:] block. *)
Definition validate_email (email : pyval) : result (list Param * string) :=
  if truthy email then
    match re_search email with
    | Ok true =>
        Ok ([ {| param_id := "customer_admin_email"; param_value := email |} ], "")
    | Ok false => Ok ([], "Please enter a valid customer admin email.")
    | Raise e => Raise e
    end
  else Ok ([], "Please enter customer admin email.").

Definition check_order_parameters (req : Fulfillment) : order_outcome :=
  match get_param_value (asset req) "customer_admin_email" with
  | Raise e => Raised e
  | Ok email =>
      match validate_email email with
      | Raise e => Raised e
      | Ok (ps, error_msg) =>
          if negb (forallb id
                     [ hasattr_value
                         (get_param_by_id (asset req) "customer_admin_email") ])
          then InquireRequest error_msg ps
          else Returned
      end
  end.

End OrderParameters.

(** ** The class [Cancel] of [connect_processor/app/cancel.py]

    Requests and parameters are plain JSON values here, read through
    [get_basic_value]; the only effect is the [approve] posted through the
    client. *)

Module Cancel.

Record approval : Type := { approved_request : pyval; approval_payload : pydict }.

Section Processor.

(** [get_basic_value] of [app/utils/utils.py], the iteration protocol behind
    [for], [Globals.ACTIVATION_TEMPLATE] and
    [client.requests[id]('approve').post(payload=...)]. *)
Variable get_basic_value : pyval -> string -> result pyval.
Variable py_iter : pyval -> result (list pyval).
Variable ACTIVATION_TEMPLATE : pyval.
Variable approve_post : pyval -> pydict -> result pyval.

(** The body of the loop, on the local [external_subscription_id]
    ([None] while unassigned). *)
Definition loop_body (external_subscription_id : option pyval) (param : pyval)
  : result (option pyval) :=
  match get_basic_value param "phase" with
  | Raise e => Raise e
  | Ok param_type =>
      if py_eq_str param_type "fulfillment" then
        match get_basic_value param "name" with
        | Raise e => Raise e
        | Ok name =>
            if py_eq_str name "subscriptionId" then
              match get_basic_value param "value" with
              | Raise e => Raise e
              | Ok v => Ok (Some v)
              end
            else Ok external_subscription_id
        end
      else Ok external_subscription_id
  end.

(** [for param in params: ...] *)
Fixpoint loop (ps : list pyval) (external_subscription_id : option pyval)
  : result (option pyval) :=
  match ps with
  | [] => Ok external_subscription_id
  | param :: ps' =>
      match loop_body external_subscription_id param with
      | Raise e => Raise e
      | Ok external_subscription_id' => loop ps' external_subscription_id'
      end
  end.

Definition process_request (request : pyval) : result unit * list approval :=
  match get_basic_value (VStr "asset") "params" with
  | Raise e => (Raise e, [])
  | Ok params_value =>
      match py_iter params_value with
      | Raise e => (Raise e, [])
      | Ok ps =>
          match loop ps None with
          | Raise e => (Raise e, [])
          | Ok _ =>
              let payload : pydict := {[ "template_id" := ACTIVATION_TEMPLATE ]} in
              match get_basic_value request "id" with
              | Raise e => (Raise e, [])
              | Ok id =>
                  (match approve_post id payload with
                   | Ok _ => Ok tt
                   | Raise e => Raise e
                   end,
                   [ {| approved_request := id; approval_payload := payload |} ])
              end
          end
      end
  end.

(** The parameter is a fulfillment parameter named [subscriptionId] whose
    value is [v]. *)
Definition selects (param v : pyval) : Prop :=
  exists phase name,
    get_basic_value param "phase" = Ok phase
    /\ py_eq_str phase "fulfillment" = true
    /\ get_basic_value param "name" = Ok name
    /\ py_eq_str name "subscriptionId" = true
    /\ get_basic_value param "value" = Ok v.

(** The parameter is read without an exception and is not such a one. *)
Definition passes (param : pyval) : Prop :=
  exists phase,
    get_basic_value param "phase" = Ok phase
    /\ (py_eq_str phase "fulfillment" = false
        \/ exists name,
             get_basic_value param "name" = Ok name
             /\ py_eq_str name "subscriptionId" = false).

End Processor.

(** A stand-in for the helpers, to run the processor: [get_basic_value]
    reads a key of a dictionary (["-"] when it is not there or the base is
    no dictionary), and lists iterate over their elements. *)
Definition sample_get_basic_value (base : pyval) (key : string) : result pyval :=
  match base with
  | VDict d => Ok (default (VStr "-") (d !! key))
  | _ => Ok (VStr "-")
  end.

Definition sample_iter (v : pyval) : result (list pyval) :=
  match v with
  | VList l => Ok l
  | VStr s => Ok ((fun c => VStr (String c EmptyString)) <$> list_ascii_of_string s)
  | _ => Raise (PyError "TypeError"
                  (VStr ("'" +:+ type_name v +:+ "' object is not iterable")))
  end.

Definition sample_param (phase name value : string) : pyval :=
  VDict (<[ "phase" := VStr phase ]>
           (<[ "name" := VStr name ]> {[ "value" := VStr value ]})).

End Cancel.

(** ** More vocabulary: the shape of the log of one dispatch *)

(** The calls of one dispatch come in the order credentials lookup, vendor
    operation, [update_parameters], template lookup; each at most once, a
    later one only after the credentials lookup and the vendor operation. *)
Definition in_call_order (suf : list event) : bool :=
  match suf with
  | [] => true
  | EvGetCredentials _ _ _ :: rest =>
      match rest with
      | [] => true
      | EvVendorCall _ _ _ :: rest' =>
          match rest' with
          | [] => true
          | [EvUpdateParameters _ _] => true
          | [EvGetActivationTemplate _ _ _] => true
          | [EvUpdateParameters _ _; EvGetActivationTemplate _ _ _] => true
          | _ => false
          end
      | _ => false
      end
  | _ => false
  end.

(** What the dispatcher returns for an outcome of the activation step. *)
Definition dispatched (o : result ActivationTemplateResponse)
  : result (option ActivationTemplateResponse) :=
  match o with
  | Ok response => Ok (Some response)
  | Raise ex => Raise ex
  end.

(** The credentials lookup of a request, as logged. *)
Definition credentials_lookup (req : Fulfillment) : event :=
  EvGetCredentials (marketplace_id req) (configuration (asset req))
                   (connection_type (asset req)).

Section DispatchLog.

Variable E : Collaborators.
Variable req : Fulfillment.

(** The event is the vendor call of the request's type: the create call of
    a purchase, or the operation of a change, suspend, resume or cancel on
    the stored [subscriptionId]; the payload is always the empty one. *)
Definition vendor_call_of (v : event) : Prop :=
  (req_type req = "purchase"
   /\ v = EvVendorCall CreateSubscription (VDict ∅) None)
  \/ exists sid,
       get_param_value (asset req) "subscriptionId" = Ok sid
       /\ ((req_type req = "change"
            /\ v = EvVendorCall ChangeSubscription (VDict ∅) (Some sid))
           \/ (req_type req = "suspend"
               /\ v = EvVendorCall SuspendSubscription (VDict ∅) (Some sid))
           \/ (req_type req = "resume"
               /\ v = EvVendorCall ResumeSubscription (VDict ∅) (Some sid))
           \/ (req_type req = "cancel"
               /\ v = EvVendorCall CancelSubscription (VDict ∅) (Some sid))).

(** The event is the [update_parameters] call of a successful purchase
    ([subscriptionId] set to the truthy [tenantId] the vendor returned) or
    of a successful change ([creationDate] set to the current time, the
    status code of the vendor result lowering to ["success"]). *)
Definition persisted (u : event) : Prop :=
  (req_type req = "purchase"
   /\ exists creds info tenant,
        get_credentials E (marketplace_id req) (configuration (asset req))
                        (connection_type (asset req)) = Ok creds
        /\ create_subscription E creds (VDict ∅) = Ok info
        /\ info !! "tenantId" = Some tenant
        /\ truthy tenant = true
        /\ u = EvUpdateParameters (req_id req)
                 [ {| param_id := "subscriptionId"; param_value := tenant |} ])
  \/ (req_type req = "change"
      /\ exists sid creds info s,
           get_param_value (asset req) "subscriptionId" = Ok sid
           /\ get_credentials E (marketplace_id req) (configuration (asset req))
                              (connection_type (asset req)) = Ok creds
           /\ change_subscription E creds (VDict ∅) sid = Ok info
           /\ get_status_code E info = Ok (VStr s)
           /\ py_lower s = "success"
           /\ u = EvUpdateParameters (req_id req)
                    [ {| param_id := "creationDate";
                         param_value := VDateTime (datetime_now E) |} ]).

(** The calls a handler can have made when its part before the activation
    step ends, by whether that part returned ([true]) or raised. *)
Inductive phase_log : bool -> list event -> Prop :=
| phase_no_call : phase_log false []
| phase_credentials_failed : phase_log false [credentials_lookup req]
| phase_vendor_called (returned : bool) (v : event) :
    vendor_call_of v -> phase_log returned [credentials_lookup req; v]
| phase_persisted (returned : bool) (v u : event) :
    vendor_call_of v -> persisted u ->
    phase_log returned [credentials_lookup req; v; u].

End DispatchLog.

Definition returned {A} (r : result A) : bool :=
  match r with Ok _ => true | Raise _ => false end.

(** The parameters handed to [update_parameters] by a successful change
    and by a successful purchase. *)
Definition creationDate_params (E : Collaborators) : list Param :=
  [ {| param_id := "creationDate"; param_value := VDateTime (datetime_now E) |} ].

Definition subscriptionId_params (tenant : pyval) : list Param :=
  [ {| param_id := "subscriptionId"; param_value := tenant |} ].

(** ** Collaborators that fail, to run the handlers on their error paths *)

Module Faulty.

Definition credentials (E : Collaborators) (e : exn) : Collaborators :=
  {| get_credentials := fun _ _ _ => Raise e;
     create_subscription := create_subscription E;
     change_subscription := change_subscription E;
     cancel_subscription := cancel_subscription E;
     suspend_subscription := suspend_subscription E;
     resume_subscription := resume_subscription E;
     update_parameters := update_parameters E;
     get_activation_template := get_activation_template E;
     get_status_code := get_status_code E;
     is_downsize_request := is_downsize_request E;
     datetime_now := datetime_now E;
     py_repr := py_repr E;
     NOT_ALLOWED_DOWNSIZE := NOT_ALLOWED_DOWNSIZE E;
     ACTIVATING_TEMPLATE_ERROR := ACTIVATING_TEMPLATE_ERROR E;
     EMPTY_ACTIVATION_TILE := EMPTY_ACTIVATION_TILE E |}.

Definition vendor (E : Collaborators) (e : exn) : Collaborators :=
  {| get_credentials := get_credentials E;
     create_subscription := fun _ _ => Raise e;
     change_subscription := fun _ _ _ => Raise e;
     cancel_subscription := fun _ _ _ => Raise e;
     suspend_subscription := fun _ _ _ => Raise e;
     resume_subscription := fun _ _ _ => Raise e;
     update_parameters := update_parameters E;
     get_activation_template := get_activation_template E;
     get_status_code := get_status_code E;
     is_downsize_request := is_downsize_request E;
     datetime_now := datetime_now E;
     py_repr := py_repr E;
     NOT_ALLOWED_DOWNSIZE := NOT_ALLOWED_DOWNSIZE E;
     ACTIVATING_TEMPLATE_ERROR := ACTIVATING_TEMPLATE_ERROR E;
     EMPTY_ACTIVATION_TILE := EMPTY_ACTIVATION_TILE E |}.

Definition platform (E : Collaborators) (e : exn) : Collaborators :=
  {| get_credentials := get_credentials E;
     create_subscription := create_subscription E;
     change_subscription := change_subscription E;
     cancel_subscription := cancel_subscription E;
     suspend_subscription := suspend_subscription E;
     resume_subscription := resume_subscription E;
     update_parameters := fun _ _ => Raise e;
     get_activation_template := get_activation_template E;
     get_status_code := get_status_code E;
     is_downsize_request := is_downsize_request E;
     datetime_now := datetime_now E;
     py_repr := py_repr E;
     NOT_ALLOWED_DOWNSIZE := NOT_ALLOWED_DOWNSIZE E;
     ACTIVATING_TEMPLATE_ERROR := ACTIVATING_TEMPLATE_ERROR E;
     EMPTY_ACTIVATION_TILE := EMPTY_ACTIVATION_TILE E |}.

(** A request of the given type whose asset has no parameter at all. *)
Definition bare_request (type : string) : Fulfillment :=
  {| req_id := "PR-2";
     req_type := type;
     asset := {| asset_id := "AS-2";
                 external_id := "ext-2";
                 params := [];
                 items := [];
                 configuration := VDict ∅;
                 connection_type := "production" |};
     marketplace_id := "MP-1" |}.

(** A request whose asset carries the ordering parameter
    [customer_admin_email]. *)
Definition order_request (email : pyval) : Fulfillment :=
  {| req_id := "PR-3";
     req_type := "purchase";
     asset := {| asset_id := "AS-3";
                 external_id := "ext-3";
                 params := [ {| param_id := "customer_admin_email";
                                param_value := email |} ];
                 items := [];
                 configuration := VDict ∅;
                 connection_type := "production" |};
     marketplace_id := "MP-1" |}.

End Faulty.

(** ** Stepping lemmas for the handler monad *)

Section Stepping.

Context {A B : Type}.

Lemma bind_ok (m : M A) (k : A -> M B) tr a tr' :
  m tr = (Ok a, tr') -> bind m k tr = k a tr'.
Proof. intros Hm. unfold bind. now rewrite Hm. Qed.

Lemma bind_raise (m : M A) (k : A -> M B) tr e tr' :
  m tr = (Raise e, tr') -> bind m k tr = (Raise e, tr').
Proof. intros Hm. unfold bind. now rewrite Hm. Qed.

Lemma try_except_ok (m : M A) (h : exn -> M A) tr a tr' :
  m tr = (Ok a, tr') -> try_except m h tr = (Ok a, tr').
Proof. intros Hm. unfold try_except. now rewrite Hm. Qed.

Lemma try_except_raise (m : M A) (h : exn -> M A) tr e tr' :
  m tr = (Raise e, tr') -> try_except m h tr = h e tr'.
Proof. intros Hm. unfold try_except. now rewrite Hm. Qed.

(** A handler that raises again whatever it caught is no handler at all. *)
Lemma try_except_reraise (m : M A) (h : exn -> M A) :
  (forall e, h e = raise e) -> forall tr, try_except m h tr = m tr.
Proof.
  intros Hh tr. unfold try_except.
  destruct (m tr) as [[a|e] tr']; [reflexivity|].
  now rewrite Hh.
Qed.

End Stepping.

Lemma reraise_FailRequest {A} (err : exn) :
  match err with FailRequest _ => raise err | _ => raise err end = @raise A err.
Proof. now destruct err. Qed.

Lemma reraise_any {A} (err : exn) :
  match err with
  | SkipRequest _ => raise err
  | FailRequest _ => raise err
  | PyError _ _ => raise err
  end = @raise A err.
Proof. now destruct err. Qed.

(** ** Reading the first structured error of a vendor result *)

Section Classification.

Lemma first_error_get_eval (info e : pydict) (rest : list pyval) field tr :
  info !! "errors" = Some (VList (VDict e :: rest)) ->
  first_error_get info field tr = (Ok (default VNone (e !! field)), tr).
Proof.
  intros Herr. unfold first_error_get, bind, lift, dict_getitem.
  now rewrite Herr.
Qed.

Lemma error_code_is_unknown_eval (info e : pydict) (rest : list pyval) tr :
  info !! "errors" = Some (VList (VDict e :: rest)) ->
  error_code_is_unknown info tr =
    (Ok (is_None (default VNone (e !! "errorCode"))
         || py_eq_str (default VNone (e !! "errorCode")) "UNKNOWN_ERROR"), tr).
Proof.
  intros Herr. unfold error_code_is_unknown.
  rewrite (bind_ok _ _ _ _ _ (first_error_get_eval _ _ _ _ tr Herr)).
  destruct (is_None (default VNone (e !! "errorCode"))); [reflexivity|].
  now rewrite (bind_ok _ _ _ _ _ (first_error_get_eval _ _ _ _ tr Herr)).
Qed.

Lemma code_unknown_test (e : pydict) :
  code_unknown e ->
  is_None (default VNone (e !! "errorCode"))
  || py_eq_str (default VNone (e !! "errorCode")) "UNKNOWN_ERROR" = true.
Proof. intros [-> | [-> | ->]]; reflexivity. Qed.

Lemma code_named_test (e : pydict) :
  code_named e ->
  is_None (default VNone (e !! "errorCode"))
  || py_eq_str (default VNone (e !! "errorCode")) "UNKNOWN_ERROR" = false.
Proof.
  intros (c & -> & Hnone & Hunk). simpl.
  destruct c; try reflexivity; try congruence.
  simpl. apply bool_decide_eq_false. congruence.
Qed.

End Classification.

(** ** Outcome classification in [_create_subscription] and
       [_check_update_response] *)

Section Outcomes.

Variable E : Collaborators.
Variable req : Fulfillment.

(** [_create_subscription] up to the point where the vendor result is read. *)
Lemma _create_subscription_read creds info tr :
  get_credentials E (marketplace_id req) (configuration (asset req))
                  (connection_type (asset req)) = Ok creds ->
  create_subscription E creds (VDict ∅) = Ok info ->
  _create_subscription E req tr =
    (let* tenant := lift (dict_getitem info "tenantId") in
     if truthy tenant then
       let* tenant' := lift (dict_getitem info "tenantId") in
       let ps := [ {| param_id := "subscriptionId"; param_value := tenant' |} ] in
       let* _ := automation_update_parameters E req ps in
       ret info
     else
       let* unknown := error_code_is_unknown info in
       if unknown then
         let* logged := first_error_get info "errorMessage" in
         let* _ := lift (str_concat_check logged) in
         let* msg := first_error_get info "errorMessage" in
         raise (skip_request msg)
       else
         let* msg := first_error_get info "errorMessage" in
         raise (fail_request msg)) (tr ++ create_calls req).
Proof.
  intros Hcred Hcall. unfold _create_subscription.
  rewrite try_except_reraise by apply reraise_FailRequest.
  unfold _parse_subscription, credentials_of, call, create_calls.
  unfold bind at 1. unfold ret at 1.
  unfold bind at 1. rewrite Hcred.
  unfold bind at 1. rewrite Hcall.
  now rewrite <- app_assoc.
Qed.

Lemma create_skips_unknown creds info tenant e rest m tr :
  get_credentials E (marketplace_id req) (configuration (asset req))
                  (connection_type (asset req)) = Ok creds ->
  create_subscription E creds (VDict ∅) = Ok info ->
  info !! "tenantId" = Some tenant ->
  truthy tenant = false ->
  info !! "errors" = Some (VList (VDict e :: rest)) ->
  code_unknown e ->
  e !! "errorMessage" = Some (VStr m) ->
  _create_subscription E req tr = (Raise (skip_request (VStr m)), tr ++ create_calls req).
Proof.
  intros Hcred Hcall Hten Hfalsy Herr Hcode Hmsg.
  rewrite (_create_subscription_read _ _ _ Hcred Hcall).
  unfold bind at 1. unfold lift at 1, dict_getitem at 1. rewrite Hten, Hfalsy.
  rewrite (bind_ok _ _ _ _ _ (error_code_is_unknown_eval _ _ _ _ Herr)).
  rewrite (code_unknown_test _ Hcode).
  rewrite (bind_ok _ _ _ _ _ (first_error_get_eval _ _ _ _ _ Herr)).
  rewrite Hmsg. simpl default.
  unfold bind at 1. unfold lift at 1. simpl str_concat_check.
  now rewrite (bind_ok _ _ _ _ _ (first_error_get_eval _ _ _ "errorMessage" _ Herr)), Hmsg.
Qed.

Lemma create_fails_named creds info tenant e rest tr :
  get_credentials E (marketplace_id req) (configuration (asset req))
                  (connection_type (asset req)) = Ok creds ->
  create_subscription E creds (VDict ∅) = Ok info ->
  info !! "tenantId" = Some tenant ->
  truthy tenant = false ->
  info !! "errors" = Some (VList (VDict e :: rest)) ->
  code_named e ->
  _create_subscription E req tr =
    (Raise (fail_request (default VNone (e !! "errorMessage"))), tr ++ create_calls req).
Proof.
  intros Hcred Hcall Hten Hfalsy Herr Hcode.
  rewrite (_create_subscription_read _ _ _ Hcred Hcall).
  unfold bind at 1. unfold lift at 1, dict_getitem at 1. rewrite Hten, Hfalsy.
  rewrite (bind_ok _ _ _ _ _ (error_code_is_unknown_eval _ _ _ _ Herr)).
  rewrite (code_named_test _ Hcode).
  now rewrite (bind_ok _ _ _ _ _ (first_error_get_eval _ _ _ _ _ Herr)).
Qed.

(** [_check_update_response] once the status code is known not to be a
    success. *)
Lemma _check_update_response_not_success info s tr :
  get_status_code E info = Ok (VStr s) ->
  py_lower s <> "success" ->
  _check_update_response E info req tr =
    (if dict_contains info "errors" then
       let* unknown := error_code_is_unknown info in
       if unknown then
         let* logged := first_error_get info "errorMessage" in
         let* msg := first_error_get info "errorMessage" in
         raise (skip_request msg)
       else
         let* logged := first_error_get info "errorMessage" in
         let* _ := lift (str_concat_check logged) in
         let* msg := first_error_get info "errorMessage" in
         raise (fail_request msg)
     else if dict_contains info "error" then
       let* logged := lift (dict_getitem info "error") in
       let* raw := lift (dict_getitem info "error") in
       raise (PyError "Exception" raw)
     else ret tt) tr.
Proof.
  intros Hcode Hne. unfold _check_update_response.
  unfold bind at 1. unfold lift at 1. rewrite Hcode.
  unfold bind at 1. unfold lift at 1. simpl py_lower_method.
  unfold py_eq_str. now rewrite bool_decide_eq_false_2.
Qed.

Lemma update_skips_unknown info s e rest tr :
  get_status_code E info = Ok (VStr s) ->
  py_lower s <> "success" ->
  info !! "errors" = Some (VList (VDict e :: rest)) ->
  code_unknown e ->
  _check_update_response E info req tr =
    (Raise (skip_request (default VNone (e !! "errorMessage"))), tr).
Proof.
  intros Hcode Hne Herr Hunk.
  rewrite (_check_update_response_not_success _ _ _ Hcode Hne).
  unfold dict_contains at 1. rewrite Herr.
  rewrite (bind_ok _ _ _ _ _ (error_code_is_unknown_eval _ _ _ _ Herr)).
  rewrite (code_unknown_test _ Hunk).
  rewrite (bind_ok _ _ _ _ _ (first_error_get_eval _ _ _ _ _ Herr)).
  now rewrite (bind_ok _ _ _ _ _ (first_error_get_eval _ _ _ _ _ Herr)).
Qed.

Lemma update_fails_named info s e rest m tr :
  get_status_code E info = Ok (VStr s) ->
  py_lower s <> "success" ->
  info !! "errors" = Some (VList (VDict e :: rest)) ->
  code_named e ->
  e !! "errorMessage" = Some (VStr m) ->
  _check_update_response E info req tr = (Raise (fail_request (VStr m)), tr).
Proof.
  intros Hcode Hne Herr Hnamed Hmsg.
  rewrite (_check_update_response_not_success _ _ _ Hcode Hne).
  unfold dict_contains at 1. rewrite Herr.
  rewrite (bind_ok _ _ _ _ _ (error_code_is_unknown_eval _ _ _ _ Herr)).
  rewrite (code_named_test _ Hnamed).
  rewrite (bind_ok _ _ _ _ _ (first_error_get_eval _ _ _ _ _ Herr)).
  rewrite Hmsg. simpl default.
  unfold bind at 1. unfold lift at 1. simpl str_concat_check.
  now rewrite (bind_ok _ _ _ _ _ (first_error_get_eval _ _ _ "errorMessage" _ Herr)), Hmsg.
Qed.

End Outcomes.

(** ** Claims about the outcome classification *)

(** X18.  When the first entry of the [errors] list has no [errorCode], a
    null one, or ["UNKNOWN_ERROR"], both outcome checks raise the
    [SkipRequest] constructed from that entry's [errorMessage] (which keeps
    the message, or ['Request skipped'] when the message is empty or
    missing): the purchase check when the result has a [tenantId] entry that
    is empty and the message is a string, the change check when the status
    code is not a success. *)
Theorem unknown_error_code_is_transient
    (E : Collaborators) (req : Fulfillment) (info e : pydict)
    (rest : list pyval) (tr : list event) :
  info !! "errors" = Some (VList (VDict e :: rest)) ->
  code_unknown e ->
  (forall creds tenant m,
      get_credentials E (marketplace_id req) (configuration (asset req))
                      (connection_type (asset req)) = Ok creds ->
      create_subscription E creds (VDict ∅) = Ok info ->
      info !! "tenantId" = Some tenant ->
      truthy tenant = false ->
      e !! "errorMessage" = Some (VStr m) ->
      _create_subscription E req tr
      = (Raise (skip_request (VStr m)), tr ++ create_calls req))
  /\
  (forall s,
      get_status_code E info = Ok (VStr s) ->
      py_lower s <> "success" ->
      _check_update_response E info req tr
      = (Raise (skip_request (default VNone (e !! "errorMessage"))), tr)).
Proof.
  intros Herr Hcode. split.
  - intros creds tenant m Hcred Hcall Hten Hfalsy Hmsg.
    exact (create_skips_unknown E req creds info tenant e rest m tr
             Hcred Hcall Hten Hfalsy Herr Hcode Hmsg).
  - intros s Hstatus Hne.
    exact (update_skips_unknown E req info s e rest tr Hstatus Hne Herr Hcode).
Qed.

Lemma unknown_error_code_is_transient_witness :
  let info := Scenario.failed "UNKNOWN_ERROR" "timeout" in
  let E := Sample.collaborators info Sample.all_templates in
  _create_subscription E Scenario.purchase_request []
  = (Raise (SkipRequest (VStr "timeout")),
     [ EvGetCredentials "MP-1" (VDict ∅) "production";
       EvVendorCall CreateSubscription (VDict ∅) None ])
  /\ _check_update_response E info Scenario.change_request []
     = (Raise (SkipRequest (VStr "timeout")), []).
Proof.
  intros info E.
  assert (Herr : info !! "errors"
                 = Some (VList [VDict (Scenario.entry "UNKNOWN_ERROR" "timeout")]))
    by (vm_compute; reflexivity).
  assert (Hcode : code_unknown (Scenario.entry "UNKNOWN_ERROR" "timeout"))
    by (right; right; vm_compute; reflexivity).
  split.
  - apply (proj1 (unknown_error_code_is_transient E Scenario.purchase_request
                    info _ [] [] Herr Hcode)
             (VStr "api-key") (VStr "") "timeout");
      vm_compute; reflexivity.
  - apply (proj2 (unknown_error_code_is_transient E Scenario.change_request
                    info _ [] [] Herr Hcode) "FAILED").
    + vm_compute; reflexivity.
    + vm_compute. discriminate.
Defined.

(** C3 fails on the code, on the purchase path.  A create result that
    carries the structured error
    [{errors: [{errorCode: "UNKNOWN_ERROR", errorMessage: "timeout"}]}] but
    no [tenantId] key raises [KeyError] at the success test, before the
    error list is looked at; the dispatcher lets the [KeyError] out, so the
    request is neither skipped nor failed. *)
Theorem unknown_error_without_tenantId_is_KeyError :
  let info := Sample.structured_error "UNKNOWN_ERROR" "timeout" in
  let E := Sample.collaborators info Sample.all_templates in
  info !! "tenantId" = None
  /\ info !! "errors"
     = Some (VList [VDict (Scenario.entry "UNKNOWN_ERROR" "timeout")])
  /\ _create_subscription E Scenario.purchase_request []
     = (Raise (PyError "KeyError" (VStr "tenantId")),
        [ EvGetCredentials "MP-1" (VDict ∅) "production";
          EvVendorCall CreateSubscription (VDict ∅) None ])
  /\ process_request E Scenario.purchase_request []
     = (Raise (PyError "KeyError" (VStr "tenantId")),
        [ EvGetCredentials "MP-1" (VDict ∅) "production";
          EvVendorCall CreateSubscription (VDict ∅) None ])
  /\ fst (process_request E Scenario.purchase_request [])
     <> Raise (SkipRequest (VStr "timeout")).
Proof.
  repeat split; try (vm_compute; reflexivity).
  vm_compute. discriminate.
Qed.

(** The change check on the same result does skip: it tests for the key
    with [in] before it reads the list. *)
Lemma unknown_error_without_tenantId_update_check_skips :
  let info := Sample.structured_error "UNKNOWN_ERROR" "timeout" in
  let E := Sample.collaborators info Sample.all_templates in
  _check_update_response E info Scenario.change_request []
  = (Raise (SkipRequest (VStr "timeout")), []).
Proof. vm_compute. reflexivity. Qed.

(** Where the vendor message is empty or missing, the exception carries the
    default text of its constructor. *)
Lemma empty_error_message_gets_default_text :
  let E := Sample.collaborators ∅ Sample.all_templates in
  _check_update_response E
    {[ "errors" := VList [ VDict (Scenario.entry "UNKNOWN_ERROR" "") ] ]}
    Scenario.change_request []
  = (Raise (SkipRequest (VStr "Request skipped")), [])
  /\ _check_update_response E
       {[ "errors" := VList [ VDict {[ "errorCode" := VStr "UNKNOWN_ERROR" ]} ] ]}
       Scenario.change_request []
     = (Raise (SkipRequest (VStr "Request skipped")), [])
  /\ _create_subscription
       (Sample.collaborators
          (<[ "tenantId" := VStr "" ]>
             {[ "errors" := VList [ VDict {[ "errorCode" := VStr "INVALID_DATA" ]} ] ]})
          Sample.all_templates)
       Scenario.purchase_request []
     = (Raise (FailRequest (VStr "Request failed")),
        [ EvGetCredentials "MP-1" (VDict ∅) "production";
          EvVendorCall CreateSubscription (VDict ∅) None ]).
Proof. repeat split; vm_compute; reflexivity. Qed.

Lemma skip_request_truthy (message : pyval) :
  truthy message = true -> skip_request message = SkipRequest message.
Proof. intros Ht. unfold skip_request. now rewrite Ht. Qed.

Lemma fail_request_truthy (message : pyval) :
  truthy message = true -> fail_request message = FailRequest message.
Proof. intros Ht. unfold fail_request. now rewrite Ht. Qed.

(** C4 (as amended).  When the first entry of the [errors] list has an
    [errorCode] that is neither null nor ["UNKNOWN_ERROR"], both outcome
    checks raise the [FailRequest] constructed from that entry's
    [errorMessage] (which keeps the message, or ['Request failed'] when the
    message is empty or missing): the purchase check when the result has a
    [tenantId] entry that is empty, the change check when the status code is
    not a success and the message is a string. *)
Theorem named_error_code_is_terminal
    (E : Collaborators) (req : Fulfillment) (info e : pydict)
    (rest : list pyval) (tr : list event) :
  info !! "errors" = Some (VList (VDict e :: rest)) ->
  code_named e ->
  (forall creds tenant,
      get_credentials E (marketplace_id req) (configuration (asset req))
                      (connection_type (asset req)) = Ok creds ->
      create_subscription E creds (VDict ∅) = Ok info ->
      info !! "tenantId" = Some tenant ->
      truthy tenant = false ->
      _create_subscription E req tr
      = (Raise (fail_request (default VNone (e !! "errorMessage"))),
         tr ++ create_calls req))
  /\
  (forall s m,
      get_status_code E info = Ok (VStr s) ->
      py_lower s <> "success" ->
      e !! "errorMessage" = Some (VStr m) ->
      _check_update_response E info req tr = (Raise (fail_request (VStr m)), tr)).
Proof.
  intros Herr Hcode. split.
  - intros creds tenant Hcred Hcall Hten Hfalsy.
    exact (create_fails_named E req creds info tenant e rest tr
             Hcred Hcall Hten Hfalsy Herr Hcode).
  - intros s m Hstatus Hne Hmsg.
    exact (update_fails_named E req info s e rest m tr Hstatus Hne Herr Hcode Hmsg).
Qed.

Lemma named_error_code_is_terminal_witness :
  let info := Scenario.failed "INVALID_DATA" "bad address" in
  let E := Sample.collaborators info Sample.all_templates in
  _create_subscription E Scenario.purchase_request []
  = (Raise (FailRequest (VStr "bad address")),
     [ EvGetCredentials "MP-1" (VDict ∅) "production";
       EvVendorCall CreateSubscription (VDict ∅) None ])
  /\ _check_update_response E info Scenario.change_request []
     = (Raise (FailRequest (VStr "bad address")), []).
Proof.
  intros info E.
  assert (Herr : info !! "errors"
                 = Some (VList [VDict (Scenario.entry "INVALID_DATA" "bad address")]))
    by (vm_compute; reflexivity).
  assert (Hcode : code_named (Scenario.entry "INVALID_DATA" "bad address")).
  { exists (VStr "INVALID_DATA").
    split; [vm_compute; reflexivity | split; discriminate]. }
  split.
  - apply (proj1 (named_error_code_is_terminal E Scenario.purchase_request
                    info _ [] [] Herr Hcode)
             (VStr "api-key") (VStr ""));
      vm_compute; reflexivity.
  - apply (proj2 (named_error_code_is_terminal E Scenario.change_request
                    info _ [] [] Herr Hcode) "FAILED" "bad address").
    + vm_compute; reflexivity.
    + vm_compute. discriminate.
    + vm_compute; reflexivity.
Defined.

(** C4, as stated, fails by the design of the test on the code: an entry
    whose [errorCode] is present but null,
    [{errorCode: null, errorMessage: "bad address"}], is different from
    ["UNKNOWN_ERROR"], yet it takes the [is None] branch, and both checks
    raise [SkipRequest], not [FailRequest]. *)
Lemma null_error_code_is_skipped_not_failed :
  let e : pydict := {[ "errorCode" := VNone; "errorMessage" := VStr "bad address" ]} in
  let info : pydict :=
    <[ "tenantId" := VStr "" ]>
      (<[ "statusCode" := VStr "FAILED" ]> {[ "errors" := VList [ VDict e ] ]}) in
  let E := Sample.collaborators info Sample.all_templates in
  e !! "errorCode" = Some VNone
  /\ VNone <> VStr "UNKNOWN_ERROR"
  /\ _create_subscription E Scenario.purchase_request []
     = (Raise (SkipRequest (VStr "bad address")),
        [ EvGetCredentials "MP-1" (VDict ∅) "production";
          EvVendorCall CreateSubscription (VDict ∅) None ])
  /\ _check_update_response E info Scenario.change_request []
     = (Raise (SkipRequest (VStr "bad address")), [])
  /\ (forall message,
        fst (_create_subscription E Scenario.purchase_request [])
        <> Raise (FailRequest message))
  /\ (forall message,
        fst (_check_update_response E info Scenario.change_request [])
        <> Raise (FailRequest message)).
Proof.
  cbv zeta.
  split; [vm_compute; reflexivity|].
  split; [discriminate|].
  split; [vm_compute; reflexivity|].
  split; [vm_compute; reflexivity|].
  split; intros message; vm_compute; discriminate.
Qed.

(** The defect of C3 with a named error code: without a [tenantId] key the
    purchase path raises [KeyError] here too. *)
Lemma named_error_without_tenantId_is_KeyError :
  let info := Sample.structured_error "INVALID_DATA" "bad address" in
  let E := Sample.collaborators info Sample.all_templates in
  info !! "tenantId" = None
  /\ info !! "errors"
     = Some (VList [VDict (Scenario.entry "INVALID_DATA" "bad address")])
  /\ _create_subscription E Scenario.purchase_request []
     = (Raise (PyError "KeyError" (VStr "tenantId")),
        [ EvGetCredentials "MP-1" (VDict ∅) "production";
          EvVendorCall CreateSubscription (VDict ∅) None ])
  /\ fst (_create_subscription E Scenario.purchase_request [])
     <> Raise (FailRequest (VStr "bad address")).
Proof.
  repeat split; try (vm_compute; reflexivity).
  vm_compute. discriminate.
Qed.

(** ** The dispatcher *)

Section Dispatch.

Variable E : Collaborators.
Variable req : Fulfillment.

Lemma process_request_reraises tr :
  process_request E req tr =
    (if bool_decide (req_type req = "purchase") then returning (purchase E req)
     else if bool_decide (req_type req = "change") then returning (change E req)
     else if bool_decide (req_type req = "suspend") then returning (suspend E req)
     else if bool_decide (req_type req = "resume") then returning (resume E req)
     else if bool_decide (req_type req = "cancel") then returning (cancel E req)
     else ret None) tr.
Proof.
  unfold process_request.
  now rewrite try_except_reraise by apply reraise_any.
Qed.

Lemma process_request_purchase tr :
  req_type req = "purchase" ->
  process_request E req tr = returning (purchase E req) tr.
Proof. intros Ht. rewrite process_request_reraises, Ht. reflexivity. Qed.

Lemma process_request_change tr :
  req_type req = "change" ->
  process_request E req tr = returning (change E req) tr.
Proof. intros Ht. rewrite process_request_reraises, Ht. reflexivity. Qed.

Lemma process_request_suspend tr :
  req_type req = "suspend" ->
  process_request E req tr = returning (suspend E req) tr.
Proof. intros Ht. rewrite process_request_reraises, Ht. reflexivity. Qed.

Lemma process_request_resume tr :
  req_type req = "resume" ->
  process_request E req tr = returning (resume E req) tr.
Proof. intros Ht. rewrite process_request_reraises, Ht. reflexivity. Qed.

Lemma process_request_cancel tr :
  req_type req = "cancel" ->
  process_request E req tr = returning (cancel E req) tr.
Proof. intros Ht. rewrite process_request_reraises, Ht. reflexivity. Qed.

Lemma returning_raise (h : M ActivationTemplateResponse) tr e tr' :
  h tr = (Raise e, tr') -> returning h tr = (Raise e, tr').
Proof. intros Hh. unfold returning. now rewrite (bind_raise _ _ _ _ _ Hh). Qed.

Lemma returning_ok (h : M ActivationTemplateResponse) tr a tr' :
  h tr = (Ok a, tr') -> returning h tr = (Ok (Some a), tr').
Proof. intros Hh. unfold returning. now rewrite (bind_ok _ _ _ _ _ Hh). Qed.

(** [_change_subscription] up to the outcome check. *)
Lemma _change_subscription_read sid creds info tr :
  get_param_value (asset req) "subscriptionId" = Ok sid ->
  get_credentials E (marketplace_id req) (configuration (asset req))
                  (connection_type (asset req)) = Ok creds ->
  change_subscription E creds (VDict ∅) sid = Ok info ->
  _change_subscription E req tr
  = _check_update_response E info req (tr ++ change_calls req sid).
Proof.
  intros Hsid Hcred Hcall. unfold _change_subscription.
  rewrite try_except_reraise by apply reraise_FailRequest.
  unfold _parse_subscription, credentials_of, call, change_calls.
  unfold bind at 1. unfold lift at 1. rewrite Hsid.
  unfold bind at 1. unfold ret at 1.
  unfold bind at 1. rewrite Hcred.
  unfold bind at 1. rewrite Hcall.
  now rewrite <- app_assoc.
Qed.

End Dispatch.

(** C8.  When the status code of the vendor result lowers to ["success"],
    the outcome check of a change calls [update_parameters] with the single
    parameter [creationDate] set to the current time and raises nothing of
    its own: its result is the result of that call, so the change's vendor
    step ends without a failure once the platform accepts the update. *)
Theorem success_status_persists_creationDate
    (E : Collaborators) (req : Fulfillment) (info : pydict) (s : string)
    (tr : list event) :
  get_status_code E info = Ok (VStr s) ->
  py_lower s = "success" ->
  let ps := [ {| param_id := "creationDate";
                 param_value := VDateTime (datetime_now E) |} ] in
  _check_update_response E info req tr
  = (update_parameters E (req_id req) ps, tr ++ [EvUpdateParameters (req_id req) ps])
  /\
  (forall sid creds,
      get_param_value (asset req) "subscriptionId" = Ok sid ->
      get_credentials E (marketplace_id req) (configuration (asset req))
                      (connection_type (asset req)) = Ok creds ->
      change_subscription E creds (VDict ∅) sid = Ok info ->
      update_parameters E (req_id req) ps = Ok tt ->
      _change_subscription E req tr
      = (Ok tt, tr ++ change_calls req sid ++ [EvUpdateParameters (req_id req) ps])).
Proof.
  intros Hstatus Hlow ps.
  assert (Hcheck : forall tr0,
             _check_update_response E info req tr0
             = (update_parameters E (req_id req) ps,
                tr0 ++ [EvUpdateParameters (req_id req) ps])).
  { intros tr0. unfold _check_update_response.
    unfold bind at 1. unfold lift at 1. rewrite Hstatus.
    unfold bind at 1. unfold lift at 1. simpl py_lower_method.
    unfold py_eq_str. rewrite bool_decide_eq_true_2 by exact Hlow.
    reflexivity. }
  split; [apply Hcheck|].
  intros sid creds Hsid Hcred Hcall Hupd.
  rewrite (_change_subscription_read E req sid creds info tr Hsid Hcred Hcall).
  rewrite Hcheck, Hupd. now rewrite <- app_assoc.
Qed.

Lemma success_status_persists_creationDate_witness :
  let info : pydict := {[ "statusCode" := VStr "Success" ]} in
  let E := Sample.collaborators info Sample.all_templates in
  let ps := [ {| param_id := "creationDate"; param_value := VDateTime 1700000000 |} ] in
  _check_update_response E info Scenario.change_request []
  = (Ok tt, [EvUpdateParameters "PR-1" ps])
  /\ _change_subscription E Scenario.change_request []
     = (Ok tt, [ EvGetCredentials "MP-1" (VDict ∅) "production";
                 EvVendorCall ChangeSubscription (VDict ∅) (Some (VStr "T1"));
                 EvUpdateParameters "PR-1" ps ]).
Proof.
  intros info E ps.
  assert (Hstatus : get_status_code E info = Ok (VStr "Success"))
    by (vm_compute; reflexivity).
  assert (Hlow : py_lower "Success" = "success") by (vm_compute; reflexivity).
  destruct (success_status_persists_creationDate E Scenario.change_request
              info "Success" [] Hstatus Hlow) as [Hcheck Hchange].
  split.
  - exact Hcheck.
  - apply (Hchange (VStr "T1") (VStr "api-key")); vm_compute; reflexivity.
Defined.

(** C2 (as amended).  When the status code is not a success, the result has
    no [errors] key and it has an [error] key, the outcome check raises a
    plain [Exception] built from the raw value of that key, neither
    [SkipRequest] nor [FailRequest]; the change handler and the dispatcher
    let it through unchanged. *)
Theorem generic_error_field_raises_plain_Exception
    (E : Collaborators) (req : Fulfillment) (info : pydict) (s : string)
    (raw : pyval) (tr : list event) :
  get_status_code E info = Ok (VStr s) ->
  py_lower s <> "success" ->
  info !! "errors" = None ->
  info !! "error" = Some raw ->
  _check_update_response E info req tr = (Raise (PyError "Exception" raw), tr)
  /\
  (forall sid creds,
      req_type req = "change" ->
      is_downsize_request E (items (asset req)) = false ->
      get_param_value (asset req) "subscriptionId" = Ok sid ->
      get_credentials E (marketplace_id req) (configuration (asset req))
                      (connection_type (asset req)) = Ok creds ->
      change_subscription E creds (VDict ∅) sid = Ok info ->
      process_request E req tr
      = (Raise (PyError "Exception" raw), tr ++ change_calls req sid)).
Proof.
  intros Hstatus Hne Herrs Herror.
  assert (Hcheck : forall tr0,
             _check_update_response E info req tr0
             = (Raise (PyError "Exception" raw), tr0)).
  { intros tr0.
    rewrite (_check_update_response_not_success E req info s tr0 Hstatus Hne).
    unfold dict_contains, bind, lift, dict_getitem, raise.
    now rewrite Herrs, Herror. }
  split; [apply Hcheck|].
  intros sid creds Htype Hguard Hsid Hcred Hcall.
  rewrite process_request_change by exact Htype.
  apply returning_raise. unfold change.
  unfold bind at 1. unfold check_if_downsize. rewrite Hguard. unfold ret at 1.
  apply bind_raise.
  rewrite (_change_subscription_read E req sid creds info tr Hsid Hcred Hcall).
  apply Hcheck.
Qed.

Lemma generic_error_field_raises_plain_Exception_witness :
  let info : pydict := {[ "error" := VStr "boom" ]} in
  let E := Sample.collaborators info Sample.all_templates in
  _check_update_response E info Scenario.change_request []
  = (Raise (PyError "Exception" (VStr "boom")), [])
  /\ process_request E Scenario.change_request []
     = (Raise (PyError "Exception" (VStr "boom")),
        [ EvGetCredentials "MP-1" (VDict ∅) "production";
          EvVendorCall ChangeSubscription (VDict ∅) (Some (VStr "T1")) ]).
Proof.
  intros info E.
  assert (Hstatus : get_status_code E info = Ok (VStr ""))
    by (vm_compute; reflexivity).
  assert (Hne : py_lower "" <> "success") by (vm_compute; discriminate).
  assert (Herrs : info !! "errors" = None) by (vm_compute; reflexivity).
  assert (Herror : info !! "error" = Some (VStr "boom")) by (vm_compute; reflexivity).
  destruct (generic_error_field_raises_plain_Exception E Scenario.change_request
              info "" (VStr "boom") [] Hstatus Hne Herrs Herror) as [Hcheck Hdispatch].
  split.
  - exact Hcheck.
  - apply (Hdispatch (VStr "T1") (VStr "api-key")); vm_compute; reflexivity.
Defined.

(** C2, as stated, fails: on [{error: "boom"}] (no status code, hence no
    success indicator; no [errors] list) the outcome check raises a plain
    [Exception], which is not a [FailRequest]. *)
Lemma generic_error_field_is_not_FailRequest :
  let info : pydict := {[ "error" := VStr "boom" ]} in
  let E := Sample.collaborators info Sample.all_templates in
  get_status_code E info = Ok (VStr "")
  /\ info !! "tenantId" = None
  /\ info !! "errors" = None
  /\ info !! "error" = Some (VStr "boom")
  /\ _check_update_response E info Scenario.change_request []
     = (Raise (PyError "Exception" (VStr "boom")), [])
  /\ forall message,
       fst (_check_update_response E info Scenario.change_request [])
       <> Raise (FailRequest message).
Proof.
  repeat split; try (vm_compute; reflexivity).
  intros message. vm_compute. discriminate.
Qed.

(** ** The activation step that ends every handler *)

Section Activation.

Variable E : Collaborators.
Variable req : Fulfillment.

Lemma py_len_raises_TypeError (v : pyval) (ex : exn) :
  py_len v = Raise ex -> exists a, ex = PyError "TypeError" a.
Proof. destruct v; simpl; intros H; inversion H; eauto. Qed.

Lemma guarded_activation_eval (kind : string) (tr : list event) :
  guarded_activation E req kind tr
  = (activation_outcome E req kind, tr ++ [template_lookup req kind]).
Proof.
  unfold guarded_activation, try_except, activate_template, activation_outcome,
    template_lookup, bind, call, lift, raise, ret.
  destruct (get_activation_template E _ _ kind) as [tid | [m | m | c a]];
    try reflexivity.
  simpl template_id.
  destruct (py_len tid) as [[|n] | ex] eqn:Hlen; try reflexivity.
  destruct (py_len_raises_TypeError _ _ Hlen) as [a ->]. reflexivity.
Qed.

Lemma activation_outcome_never_fails (kind : string) (message : pyval) :
  activation_outcome E req kind <> Raise (FailRequest message).
Proof.
  unfold activation_outcome.
  destruct (get_activation_template E _ _ kind) as [tid | [m | m | c a]];
    try discriminate.
  destruct (py_len tid) as [[|n] | ex]; discriminate.
Qed.

Lemma purchase_steps :
  purchase E req
  = (let* _ := _create_subscription E req in
     guarded_activation E req "activationTemplate").
Proof. reflexivity. Qed.

Lemma change_steps :
  change E req
  = (let* _ := check_if_downsize E req in
     let* _ := _change_subscription E req in
     guarded_activation E req "activationTemplate").
Proof. reflexivity. Qed.

Lemma cancel_steps :
  cancel E req
  = (let* _ := _cancel_subscription E req in
     guarded_activation E req "suspendSubscriptionTemplate").
Proof. reflexivity. Qed.

Lemma suspend_steps :
  suspend E req
  = (let* _ := _suspend_subscription E req in
     guarded_activation E req "suspendSubscriptionTemplate").
Proof. reflexivity. Qed.

Lemma resume_steps :
  resume E req
  = (let* _ := _resume_subscription E req in
     guarded_activation E req "activationTemplate").
Proof. reflexivity. Qed.

Lemma bind_discard {A B} (m : M A) (k : M B) tr :
  (let* _ := (let* _ := m in ret tt) in k) tr = (let* _ := m in k) tr.
Proof. unfold bind, ret. now destruct (m tr) as [[a|e] tr']. Qed.

Lemma bind_assoc_discard {A B} (m : M unit) (n : M A) (k : M B) tr :
  (let* _ := (let* _ := m in n) in k) tr
  = (let* _ := m in let* _ := n in k) tr.
Proof. unfold bind. now destruct (m tr) as [[a|e] tr']. Qed.

Lemma process_request_provisioning phase kind tr :
  provisioning E req = Some (phase, kind) ->
  process_request E req tr
  = returning (let* _ := phase in guarded_activation E req kind) tr.
Proof.
  unfold provisioning. rewrite process_request_reraises.
  repeat case_bool_decide; intros Hp; inversion Hp; subst; clear Hp;
    unfold returning.
  - rewrite purchase_steps. unfold bind at 1 3. now rewrite bind_discard.
  - rewrite change_steps. unfold bind at 1 4. now rewrite bind_assoc_discard.
  - rewrite suspend_steps. unfold bind at 1 3. now rewrite bind_discard.
  - rewrite resume_steps. unfold bind at 1 3. now rewrite bind_discard.
  - rewrite cancel_steps. unfold bind at 1 3. now rewrite bind_discard.
Qed.

Lemma process_request_after_provisioning phase kind tr tr1 :
  provisioning E req = Some (phase, kind) ->
  phase tr = (Ok tt, tr1) ->
  process_request E req tr
  = (match activation_outcome E req kind with
     | Ok response => Ok (Some response)
     | Raise ex => Raise ex
     end, tr1 ++ [template_lookup req kind]).
Proof.
  intros Hp Hphase.
  rewrite (process_request_provisioning _ _ _ Hp).
  unfold returning. unfold bind at 1.
  rewrite (bind_ok _ _ _ _ _ Hphase), guarded_activation_eval.
  now destruct (activation_outcome E req kind).
Qed.

(** [cancel] and [suspend] never read what their vendor step returned. *)
Lemma cancel_after_vendor_step info tr tc :
  _cancel_subscription E req tr = (Ok info, tc) ->
  cancel E req tr
  = (activation_outcome E req "suspendSubscriptionTemplate",
     tc ++ [template_lookup req "suspendSubscriptionTemplate"]).
Proof.
  intros Hc. rewrite cancel_steps, (bind_ok _ _ _ _ _ Hc).
  apply guarded_activation_eval.
Qed.

Lemma suspend_after_vendor_step info tr ts :
  _suspend_subscription E req tr = (Ok info, ts) ->
  suspend E req tr
  = (activation_outcome E req "suspendSubscriptionTemplate",
     ts ++ [template_lookup req "suspendSubscriptionTemplate"]).
Proof.
  intros Hs. rewrite suspend_steps, (bind_ok _ _ _ _ _ Hs).
  apply guarded_activation_eval.
Qed.

End Activation.

(** ** Claims about the handlers *)

(** C6.  Once the part of a handler that precedes its activation step has
    returned, no failure of the template resolution leaves the dispatcher as
    a [FailRequest]: a [FailRequest] or any other exception raised by the
    lookup, an empty template id and a missing one (on which [len] raises)
    all come out as [SkipRequest] with the matching message, a
    [SkipRequest] of the lookup comes out as it is, and a non-empty id is
    returned as the response. *)
Theorem activation_failure_is_transient
    (E : Collaborators) (req : Fulfillment) (phase : M unit) (kind : string)
    (tr tr1 : list event) :
  provisioning E req = Some (phase, kind) ->
  phase tr = (Ok tt, tr1) ->
  let out := fst (process_request E req tr) in
  let lookup :=
    get_activation_template E (configuration (asset req)) (marketplace_id req) kind in
  let activating_error d := Raise (SkipRequest (VStr (ACTIVATING_TEMPLATE_ERROR E d))) in
  (forall message, out <> Raise (FailRequest message))
  /\ (forall message,
        lookup = Raise (FailRequest message) ->
        out = activating_error (py_str E message))
  /\ (forall cls arg,
        lookup = Raise (PyError cls arg) ->
        out = activating_error (str_exn E (PyError cls arg)))
  /\ (forall message,
        lookup = Raise (SkipRequest message) -> out = Raise (SkipRequest message))
  /\ (forall tid,
        lookup = Ok tid -> py_len tid = Ok 0%nat ->
        out = Raise (SkipRequest (VStr (EMPTY_ACTIVATION_TILE E (marketplace_id req)))))
  /\ (forall tid ex,
        lookup = Ok tid -> py_len tid = Raise ex ->
        out = activating_error (str_exn E ex))
  /\ (forall tid n,
        lookup = Ok tid -> py_len tid = Ok (S n) ->
        out = Ok (Some {| template_id := tid |})).
Proof.
  intros Hp Hphase out lookup activating_error. subst out.
  rewrite (process_request_after_provisioning E req phase kind tr tr1 Hp Hphase).
  simpl fst. split.
  { intros message.
    pose proof (activation_outcome_never_fails E req kind message) as Hnever.
    destruct (activation_outcome E req kind); congruence. }
  unfold activation_outcome. fold lookup.
  repeat split.
  - intros message ->. reflexivity.
  - intros cls arg ->. reflexivity.
  - intros message ->. reflexivity.
  - intros tid -> ->. reflexivity.
  - intros tid ex -> ->. reflexivity.
  - intros tid n -> ->. reflexivity.
Qed.

Lemma activation_failure_is_transient_witness :
  let E := Sample.collaborators {[ "tenantId" := VStr "T1" ]}
             (fun _ => Raise (FailRequest (VStr "template service down"))) in
  fst (process_request E Scenario.purchase_request [])
  = Raise (SkipRequest (VStr "Error activating the template: template service down")).
Proof.
  intros E.
  assert (Hp : provisioning E Scenario.purchase_request
               = Some (let* _ := _create_subscription E Scenario.purchase_request in
                       ret tt, "activationTemplate")) by reflexivity.
  assert (Hphase :
            (let* _ := _create_subscription E Scenario.purchase_request in ret tt) []
            = (Ok tt, [ EvGetCredentials "MP-1" (VDict ∅) "production";
                        EvVendorCall CreateSubscription (VDict ∅) None;
                        EvUpdateParameters "PR-1"
                          [ {| param_id := "subscriptionId";
                               param_value := VStr "T1" |} ] ]))
    by (vm_compute; reflexivity).
  destruct (activation_failure_is_transient E Scenario.purchase_request _ _ _ _
              Hp Hphase) as (_ & Hfail & _).
  apply (Hfail (VStr "template service down")). reflexivity.
Defined.

(** C9.  A cancel and a suspend whose vendor step returned both make one
    template lookup, for the kind [suspendSubscriptionTemplate], and end
    with the outcome of that lookup; for two requests of the same
    marketplace and configuration that is the same response or the same
    exception. *)
Theorem cancel_and_suspend_resolve_same_kind
    (E : Collaborators) (rc rs : Fulfillment) (tr tr' tc ts : list event)
    (cancelled suspended : pydict) :
  _cancel_subscription E rc tr = (Ok cancelled, tc) ->
  _suspend_subscription E rs tr' = (Ok suspended, ts) ->
  cancel E rc tr
  = (activation_outcome E rc "suspendSubscriptionTemplate",
     tc ++ [template_lookup rc "suspendSubscriptionTemplate"])
  /\ suspend E rs tr'
     = (activation_outcome E rs "suspendSubscriptionTemplate",
        ts ++ [template_lookup rs "suspendSubscriptionTemplate"])
  /\ (configuration (asset rc) = configuration (asset rs) ->
      marketplace_id rc = marketplace_id rs ->
      fst (cancel E rc tr) = fst (suspend E rs tr')).
Proof.
  intros Hc Hs.
  pose proof (cancel_after_vendor_step E rc cancelled tr tc Hc) as Hcancel.
  pose proof (suspend_after_vendor_step E rs suspended tr' ts Hs) as Hsuspend.
  repeat split; [exact Hcancel | exact Hsuspend |].
  intros Hcfg Hmp. rewrite Hcancel, Hsuspend. simpl fst.
  unfold activation_outcome. now rewrite Hcfg, Hmp.
Qed.

Lemma cancel_and_suspend_resolve_same_kind_witness :
  let E := Sample.collaborators {[ "statusCode" := VStr "success" ]}
             (fun kind => Ok (VStr ("TL-" +:+ kind))) in
  fst (cancel E Scenario.cancel_request [])
  = Ok {| template_id := VStr "TL-suspendSubscriptionTemplate" |}
  /\ fst (suspend E Scenario.suspend_request [])
     = Ok {| template_id := VStr "TL-suspendSubscriptionTemplate" |}
  /\ fst (cancel E Scenario.cancel_request [])
     = fst (suspend E Scenario.suspend_request []).
Proof.
  intros E.
  pose (calls op := [ EvGetCredentials "MP-1" (VDict ∅) "production";
                      EvVendorCall op (VDict ∅) (Some (VStr "T1")) ]).
  assert (Hc : _cancel_subscription E Scenario.cancel_request []
               = (Ok {[ "statusCode" := VStr "success" ]}, calls CancelSubscription))
    by (vm_compute; reflexivity).
  assert (Hs : _suspend_subscription E Scenario.suspend_request []
               = (Ok {[ "statusCode" := VStr "success" ]}, calls SuspendSubscription))
    by (vm_compute; reflexivity).
  destruct (cancel_and_suspend_resolve_same_kind E Scenario.cancel_request
              Scenario.suspend_request [] [] _ _ _ _ Hc Hs)
    as (Hcancel & Hsuspend & Hsame).
  split; [rewrite Hcancel; reflexivity|].
  split; [rewrite Hsuspend; reflexivity|].
  apply Hsame; reflexivity.
Defined.

(** C7.  A purchase whose create call returns a result with a truthy
    [tenantId] calls [update_parameters] with the single parameter
    [subscriptionId] set to that [tenantId], then resolves the kind
    [activationTemplate]; when the platform accepts the update the dispatcher
    ends with the outcome of that resolution, which for a non-empty
    configured template id is the response carrying it. *)
Theorem purchase_persists_subscriptionId_then_activates
    (E : Collaborators) (req : Fulfillment) (creds : pyval) (info : pydict)
    (tenant : pyval) (tr : list event) :
  req_type req = "purchase" ->
  get_credentials E (marketplace_id req) (configuration (asset req))
                  (connection_type (asset req)) = Ok creds ->
  create_subscription E creds (VDict ∅) = Ok info ->
  info !! "tenantId" = Some tenant ->
  truthy tenant = true ->
  let ps := [ {| param_id := "subscriptionId"; param_value := tenant |} ] in
  update_parameters E (req_id req) ps = Ok tt ->
  let log := tr ++ create_calls req
                ++ [ EvUpdateParameters (req_id req) ps;
                     template_lookup req "activationTemplate" ] in
  _create_subscription E req tr
  = (Ok info, tr ++ create_calls req ++ [EvUpdateParameters (req_id req) ps])
  /\ process_request E req tr
     = (match activation_outcome E req "activationTemplate" with
        | Ok response => Ok (Some response)
        | Raise ex => Raise ex
        end, log)
  /\ (forall tid n,
        get_activation_template E (configuration (asset req)) (marketplace_id req)
                                "activationTemplate" = Ok tid ->
        py_len tid = Ok (S n) ->
        process_request E req tr = (Ok (Some {| template_id := tid |}), log)).
Proof.
  intros Htype Hcred Hcall Hten Htruthy ps Hupd log.
  assert (Hcreate : _create_subscription E req tr
                    = (Ok info, tr ++ create_calls req
                                   ++ [EvUpdateParameters (req_id req) ps])).
  { rewrite (_create_subscription_read E req creds info tr Hcred Hcall).
    unfold bind at 1. unfold lift at 1, dict_getitem at 1. rewrite Hten, Htruthy.
    unfold bind at 1. unfold lift at 1, dict_getitem at 1. rewrite Hten.
    unfold bind, automation_update_parameters, call, ret. fold ps.
    now rewrite Hupd, <- app_assoc. }
  assert (Hdispatch : process_request E req tr
                      = (match activation_outcome E req "activationTemplate" with
                         | Ok response => Ok (Some response)
                         | Raise ex => Raise ex
                         end, log)).
  { rewrite process_request_purchase by exact Htype.
    unfold returning. unfold bind at 1.
    rewrite purchase_steps, (bind_ok _ _ _ _ _ Hcreate), guarded_activation_eval.
    subst log. rewrite <- !app_assoc. simpl app.
    now destruct (activation_outcome E req "activationTemplate"). }
  repeat split; [exact Hcreate | exact Hdispatch |].
  intros tid n Htid Hlen. rewrite Hdispatch.
  unfold activation_outcome. now rewrite Htid, Hlen.
Qed.

Lemma purchase_persists_subscriptionId_then_activates_witness :
  let E := Sample.collaborators {[ "tenantId" := VStr "T1" ]} Sample.all_templates in
  process_request E Scenario.purchase_request []
  = (Ok (Some {| template_id := VStr "TL-001" |}),
     [ EvGetCredentials "MP-1" (VDict ∅) "production";
       EvVendorCall CreateSubscription (VDict ∅) None;
       EvUpdateParameters "PR-1"
         [ {| param_id := "subscriptionId"; param_value := VStr "T1" |} ];
       EvGetActivationTemplate (VDict ∅) "MP-1" "activationTemplate" ]).
Proof.
  intros E.
  assert (Hten : ({[ "tenantId" := VStr "T1" ]} : pydict) !! "tenantId"
                 = Some (VStr "T1")) by (vm_compute; reflexivity).
  destruct (purchase_persists_subscriptionId_then_activates E
              Scenario.purchase_request (VStr "api-key") _ (VStr "T1") []
              eq_refl eq_refl eq_refl Hten eq_refl eq_refl) as (_ & _ & Hok).
  apply (Hok (VStr "TL-001") 5%nat); reflexivity.
Defined.

(** C5.  A change on which the downsize guard answers true raises
    [FailRequest] with the message [NOT_ALLOWED_DOWNSIZE], out of the
    handler and out of the dispatcher, and the log of collaborator calls is
    left as it was: no vendor call, nor any other call, precedes the
    failure. *)
Theorem downsize_fails_before_any_vendor_call
    (E : Collaborators) (req : Fulfillment) (tr : list event) :
  req_type req = "change" ->
  is_downsize_request E (items (asset req)) = true ->
  change E req tr = (Raise (FailRequest (VStr (NOT_ALLOWED_DOWNSIZE E))), tr)
  /\ process_request E req tr
     = (Raise (FailRequest (VStr (NOT_ALLOWED_DOWNSIZE E))), tr)
  /\ (forall ev,
        In ev (snd (process_request E req tr)) -> is_vendor_call ev = true ->
        In ev tr).
Proof.
  intros Htype Hguard.
  assert (Hchange : change E req tr
                    = (Raise (FailRequest (VStr (NOT_ALLOWED_DOWNSIZE E))), tr)).
  { unfold change. apply bind_raise.
    unfold check_if_downsize. now rewrite Hguard. }
  assert (Hdispatch : process_request E req tr
                      = (Raise (FailRequest (VStr (NOT_ALLOWED_DOWNSIZE E))), tr)).
  { rewrite process_request_change by exact Htype.
    now apply returning_raise. }
  repeat split; [exact Hchange | exact Hdispatch |].
  rewrite Hdispatch. intros ev Hin _. exact Hin.
Qed.

Lemma downsize_fails_before_any_vendor_call_witness :
  let E := Sample.collaborators {[ "statusCode" := VStr "success" ]}
             Sample.all_templates in
  let req := Sample.request "change" [ {| quantity := 3; old_quantity := 5 |} ] in
  process_request E req [] = (Raise (FailRequest (VStr "not allowed downsize")), []).
Proof.
  intros E req.
  exact (proj1 (proj2 (downsize_fails_before_any_vendor_call E req []
                         eq_refl eq_refl))).
Defined.

(** C10.  A request whose type is none of the five handled ones runs no
    handler: the dispatcher returns [None], raises nothing and makes no
    collaborator call. *)
Theorem unhandled_type_returns_None
    (E : Collaborators) (req : Fulfillment) (tr : list event) :
  req_type req <> "purchase" ->
  req_type req <> "change" ->
  req_type req <> "suspend" ->
  req_type req <> "resume" ->
  req_type req <> "cancel" ->
  process_request E req tr = (Ok None, tr).
Proof.
  intros Hp Hch Hs Hr Hc.
  rewrite process_request_reraises.
  now rewrite !bool_decide_eq_false_2.
Qed.

Lemma unhandled_type_returns_None_witness :
  process_request (Sample.collaborators ∅ Sample.all_templates)
                  (Sample.request "adjustment" []) []
  = (Ok None, []).
Proof.
  apply unhandled_type_returns_None; simpl; discriminate.
Defined.

(** C1 fails on the code.  A cancel whose vendor call answers
    [{errors: [{errorCode: "UNKNOWN_ERROR", errorMessage: "timeout"}]}]
    is not skipped: [cancel] never inspects the answer, goes on to the
    template lookup and returns the configured response. *)
Theorem cancel_approves_despite_vendor_error :
  let info := Sample.structured_error "UNKNOWN_ERROR" "timeout" in
  let E := Sample.collaborators info Sample.all_templates in
  _cancel_subscription E Scenario.cancel_request []
  = (Ok info, [ EvGetCredentials "MP-1" (VDict ∅) "production";
                EvVendorCall CancelSubscription (VDict ∅) (Some (VStr "T1")) ])
  /\ process_request E Scenario.cancel_request []
     = (Ok (Some {| template_id := VStr "TL-001" |}),
        [ EvGetCredentials "MP-1" (VDict ∅) "production";
          EvVendorCall CancelSubscription (VDict ∅) (Some (VStr "T1"));
          EvGetActivationTemplate (VDict ∅) "MP-1" "suspendSubscriptionTemplate" ])
  /\ fst (process_request E Scenario.cancel_request [])
     <> Raise (SkipRequest (VStr "timeout")).
Proof.
  repeat split; try (vm_compute; reflexivity).
  vm_compute. discriminate.
Qed.

(** ** Closed forms of the vendor steps *)

Section VendorSteps.

Variable E : Collaborators.
Variable req : Fulfillment.

(** The step shared by cancel, suspend and resume: read the stored
    [subscriptionId], look the credentials up, call the vendor. *)
Lemma stored_subscription_step_eval
    (op : vendor_op) (f : pyval -> pyval -> pyval -> result pydict)
    (parse : Fulfillment -> M pyval) (tr : list event) :
  parse req = ret (VDict ∅) ->
  try_except
    (let* subscriptionId := lift (get_param_value (asset req) "subscriptionId") in
     let* data := parse req in
     let* credentials := credentials_of E req in
     let* operation_result :=
       call (EvVendorCall op data (Some subscriptionId))
            (f credentials data subscriptionId) in
     ret operation_result)
    (fun err => match err with FailRequest _ => raise err | _ => raise err end) tr
  = match get_param_value (asset req) "subscriptionId" with
    | Raise e => (Raise e, tr)
    | Ok sid =>
        match get_credentials E (marketplace_id req) (configuration (asset req))
                              (connection_type (asset req)) with
        | Raise e => (Raise e, tr ++ [credentials_lookup req])
        | Ok creds =>
            (f creds (VDict ∅) sid,
             tr ++ [credentials_lookup req; EvVendorCall op (VDict ∅) (Some sid)])
        end
    end.
Proof.
  intros ->.
  rewrite try_except_reraise by apply reraise_FailRequest.
  unfold credentials_of, credentials_lookup, bind, lift, call, ret.
  destruct (get_param_value _ _) as [sid|e]; [|reflexivity].
  destruct (get_credentials E _ _ _) as [creds|e]; [|reflexivity].
  rewrite <- app_assoc.
  now destruct (f creds (VDict ∅) sid).
Qed.

Lemma _cancel_subscription_eval tr :
  _cancel_subscription E req tr
  = match get_param_value (asset req) "subscriptionId" with
    | Raise e => (Raise e, tr)
    | Ok sid =>
        match get_credentials E (marketplace_id req) (configuration (asset req))
                              (connection_type (asset req)) with
        | Raise e => (Raise e, tr ++ [credentials_lookup req])
        | Ok creds =>
            (cancel_subscription E creds (VDict ∅) sid,
             tr ++ [credentials_lookup req;
                    EvVendorCall CancelSubscription (VDict ∅) (Some sid)])
        end
    end.
Proof. now apply stored_subscription_step_eval. Qed.

Lemma _suspend_subscription_eval tr :
  _suspend_subscription E req tr
  = match get_param_value (asset req) "subscriptionId" with
    | Raise e => (Raise e, tr)
    | Ok sid =>
        match get_credentials E (marketplace_id req) (configuration (asset req))
                              (connection_type (asset req)) with
        | Raise e => (Raise e, tr ++ [credentials_lookup req])
        | Ok creds =>
            (suspend_subscription E creds (VDict ∅) sid,
             tr ++ [credentials_lookup req;
                    EvVendorCall SuspendSubscription (VDict ∅) (Some sid)])
        end
    end.
Proof. now apply stored_subscription_step_eval. Qed.

Lemma _resume_subscription_eval tr :
  _resume_subscription E req tr
  = match get_param_value (asset req) "subscriptionId" with
    | Raise e => (Raise e, tr)
    | Ok sid =>
        match get_credentials E (marketplace_id req) (configuration (asset req))
                              (connection_type (asset req)) with
        | Raise e => (Raise e, tr ++ [credentials_lookup req])
        | Ok creds =>
            (resume_subscription E creds (VDict ∅) sid,
             tr ++ [credentials_lookup req;
                    EvVendorCall ResumeSubscription (VDict ∅) (Some sid)])
        end
    end.
Proof. now apply stored_subscription_step_eval. Qed.

Lemma _change_subscription_eval tr :
  _change_subscription E req tr
  = match get_param_value (asset req) "subscriptionId" with
    | Raise e => (Raise e, tr)
    | Ok sid =>
        match get_credentials E (marketplace_id req) (configuration (asset req))
                              (connection_type (asset req)) with
        | Raise e => (Raise e, tr ++ [credentials_lookup req])
        | Ok creds =>
            match change_subscription E creds (VDict ∅) sid with
            | Raise e => (Raise e, tr ++ change_calls req sid)
            | Ok info => _check_update_response E info req (tr ++ change_calls req sid)
            end
        end
    end.
Proof.
  destruct (get_param_value _ _) as [sid|e] eqn:Hsid.
  - destruct (get_credentials E _ _ _) as [creds|e] eqn:Hcred.
    + destruct (change_subscription E creds (VDict ∅) sid) as [info|e] eqn:Hcall.
      * now apply _change_subscription_read with creds.
      * unfold _change_subscription.
        rewrite try_except_reraise by apply reraise_FailRequest.
        unfold _parse_subscription, credentials_of, change_calls, bind, lift, call, ret.
        now rewrite Hsid, Hcred, Hcall, <- app_assoc.
    + unfold _change_subscription.
      rewrite try_except_reraise by apply reraise_FailRequest.
      unfold _parse_subscription, credentials_of, credentials_lookup, bind, lift, call, ret.
      now rewrite Hsid, Hcred.
  - unfold _change_subscription.
    rewrite try_except_reraise by apply reraise_FailRequest.
    unfold bind, lift. now rewrite Hsid.
Qed.

End VendorSteps.

(** ** The outcome checks make no call unless they find a success *)

Ltac split_match :=
  match goal with
  | |- context [match ?x with _ => _ end] =>
      lazymatch x with
      | context [match _ with _ => _ end] => fail
      | _ => destruct x eqn:?
      end
  end.

Section OutcomeChecks.

Variable E : Collaborators.
Variable req : Fulfillment.

(** Reading the first structured error never touches the log. *)
Lemma first_error_get_silent info field tr :
  snd (first_error_get info field tr) = tr.
Proof.
  unfold first_error_get, bind, lift, dict_getitem, py_getitem_0, py_get.
  repeat split_match; reflexivity.
Qed.

(** The failure branch of the create check always raises, without a call. *)
Lemma create_failure_branch_raises (info : pydict) tr :
  exists e,
    (let* unknown := error_code_is_unknown info in
     if unknown then
       let* logged := first_error_get info "errorMessage" in
       let* _ := lift (str_concat_check logged) in
       let* msg := first_error_get info "errorMessage" in
       raise (skip_request msg)
     else
       let* msg := first_error_get info "errorMessage" in
       raise (fail_request msg)) tr
    = (@Raise pydict e, tr).
Proof.
  unfold error_code_is_unknown, first_error_get, bind, lift, raise, ret,
    dict_getitem, py_getitem_0, py_get, str_concat_check.
  repeat split_match; eauto.
Qed.

(** So does the structured-error branch of the update check. *)
Lemma update_errors_branch_raises (info : pydict) tr :
  exists e,
    (let* unknown := error_code_is_unknown info in
     if unknown then
       let* logged := first_error_get info "errorMessage" in
       let* msg := first_error_get info "errorMessage" in
       raise (skip_request msg)
     else
       let* logged := first_error_get info "errorMessage" in
       let* _ := lift (str_concat_check logged) in
       let* msg := first_error_get info "errorMessage" in
       raise (fail_request msg)) tr
    = (@Raise unit e, tr).
Proof.
  unfold error_code_is_unknown, first_error_get, bind, lift, raise, ret,
    dict_getitem, py_getitem_0, py_get, str_concat_check.
  repeat split_match; eauto.
Qed.

Lemma _check_update_response_success info s tr :
  get_status_code E info = Ok (VStr s) ->
  py_lower s = "success" ->
  _check_update_response E info req tr
  = (update_parameters E (req_id req) (creationDate_params E),
     tr ++ [EvUpdateParameters (req_id req) (creationDate_params E)]).
Proof.
  intros Hstatus Hlow. unfold _check_update_response.
  unfold bind at 1. unfold lift at 1. rewrite Hstatus.
  unfold bind at 1. unfold lift at 1. simpl py_lower_method.
  unfold py_eq_str. now rewrite bool_decide_eq_true_2 by exact Hlow.
Qed.

(** The update check either finds a success status and makes the one
    [update_parameters] call, or makes no call at all. *)
Lemma _check_update_response_cases info tr :
  (exists s,
      get_status_code E info = Ok (VStr s) /\ py_lower s = "success"
      /\ _check_update_response E info req tr
         = (update_parameters E (req_id req) (creationDate_params E),
            tr ++ [EvUpdateParameters (req_id req) (creationDate_params E)]))
  \/ (exists r, _check_update_response E info req tr = (r, tr)).
Proof.
  destruct (get_status_code E info) as [v|e] eqn:Hstatus.
  2:{ right. exists (Raise e). unfold _check_update_response, bind, lift.
      now rewrite Hstatus. }
  destruct v as [ | b | z | s | t | l | d ];
    try (right; eexists; unfold _check_update_response, bind, lift;
         rewrite Hstatus; reflexivity).
  destruct (decide (py_lower s = "success")) as [Hlow|Hne].
  - left. exists s. repeat split; try assumption.
    now apply _check_update_response_success with s.
  - right. rewrite (_check_update_response_not_success E req info s tr Hstatus Hne).
    destruct (dict_contains info "errors").
    + destruct (update_errors_branch_raises info tr) as [e ->]. eauto.
    + destruct (dict_contains info "error"); [|eexists; reflexivity].
      unfold bind, lift, raise, dict_getitem.
      destruct (info !! "error"); eauto.
Qed.

(** The create step: a failed lookup or call is raised as it is; a truthy
    [tenantId] leads to the one [update_parameters] call; anything else
    raises with no further call. *)
Lemma _create_subscription_cases tr :
  match get_credentials E (marketplace_id req) (configuration (asset req))
                        (connection_type (asset req)) with
  | Raise e => _create_subscription E req tr = (Raise e, tr ++ [credentials_lookup req])
  | Ok creds =>
      match create_subscription E creds (VDict ∅) with
      | Raise e => _create_subscription E req tr = (Raise e, tr ++ create_calls req)
      | Ok info =>
          (exists tenant,
              info !! "tenantId" = Some tenant /\ truthy tenant = true
              /\ _create_subscription E req tr
                 = (match update_parameters E (req_id req)
                            (subscriptionId_params tenant) with
                    | Ok _ => Ok info
                    | Raise e => Raise e
                    end,
                    tr ++ create_calls req
                       ++ [EvUpdateParameters (req_id req)
                             (subscriptionId_params tenant)]))
          \/ (exists e,
                 (forall tenant, info !! "tenantId" = Some tenant -> truthy tenant = false)
                 /\ _create_subscription E req tr = (Raise e, tr ++ create_calls req))
      end
  end.
Proof.
  destruct (get_credentials E _ _ _) as [creds|e] eqn:Hcred.
  2:{ unfold _create_subscription.
      rewrite try_except_reraise by apply reraise_FailRequest.
      unfold _parse_subscription, credentials_of, credentials_lookup, bind, call, ret.
      now rewrite Hcred. }
  destruct (create_subscription E creds (VDict ∅)) as [info|e] eqn:Hcall.
  2:{ unfold _create_subscription.
      rewrite try_except_reraise by apply reraise_FailRequest.
      unfold _parse_subscription, credentials_of, create_calls, bind, call, ret.
      now rewrite Hcred, Hcall, <- app_assoc. }
  rewrite (_create_subscription_read E req creds info tr Hcred Hcall).
  destruct (info !! "tenantId") as [tenant|] eqn:Hten.
  2:{ right. eexists. split; [discriminate|].
      unfold bind at 1. unfold lift at 1. unfold dict_getitem at 1.
      rewrite Hten. reflexivity. }
  destruct (truthy tenant) eqn:Htruthy.
  - left. exists tenant. split; [reflexivity|]. split; [exact Htruthy|].
    unfold bind at 1. unfold lift at 1. unfold dict_getitem at 1.
    rewrite Hten. cbv beta iota. rewrite Htruthy.
    unfold bind at 1. unfold lift at 1. unfold dict_getitem at 1. rewrite Hten.
    unfold bind, automation_update_parameters, call, ret, subscriptionId_params.
    rewrite <- app_assoc.
    now destruct (update_parameters E _ _) as [[]|].
  - right.
    destruct (create_failure_branch_raises info (tr ++ create_calls req)) as [e He].
    exists e. split; [intros t Ht; congruence|].
    unfold bind at 1. unfold lift at 1. unfold dict_getitem at 1.
    rewrite Hten. cbv beta iota. rewrite Htruthy. exact He.
Qed.

End OutcomeChecks.

(** ** The log of one dispatch *)

Section DispatchLogLemmas.

Variable E : Collaborators.
Variable req : Fulfillment.

Lemma provisioning_None :
  provisioning E req = None <->
  req_type req <> "purchase" /\ req_type req <> "change"
  /\ req_type req <> "suspend" /\ req_type req <> "resume"
  /\ req_type req <> "cancel".
Proof.
  unfold provisioning. repeat case_bool_decide; split; try discriminate;
    intuition congruence.
Qed.

(** The template kind a handler resolves, by the type of the request. *)
Lemma provisioning_kind phase kind :
  provisioning E req = Some (phase, kind) ->
  (kind = "activationTemplate"
   /\ (req_type req = "purchase" \/ req_type req = "change"
       \/ req_type req = "resume"))
  \/ (kind = "suspendSubscriptionTemplate"
      /\ (req_type req = "suspend" \/ req_type req = "cancel")).
Proof.
  unfold provisioning.
  repeat case_bool_decide; intros Hp; inversion Hp; subst; tauto.
Qed.

Lemma process_request_cases tr :
  (provisioning E req = None /\ process_request E req tr = (Ok None, tr))
  \/ (exists phase kind r tr1,
         provisioning E req = Some (phase, kind)
         /\ phase tr = (r, tr1)
         /\ process_request E req tr
            = match r with
              | Ok _ => (dispatched (activation_outcome E req kind),
                         tr1 ++ [template_lookup req kind])
              | Raise e => (Raise e, tr1)
              end).
Proof.
  destruct (provisioning E req) as [[phase kind]|] eqn:Hp.
  - right. destruct (phase tr) as [r tr1] eqn:Hphase.
    exists phase, kind, r, tr1. split; [reflexivity|]. split; [exact Hphase|].
    destruct r as [[]|e].
    + exact (process_request_after_provisioning E req phase kind tr tr1 Hp Hphase).
    + rewrite (process_request_provisioning E req phase kind tr Hp).
      apply returning_raise. now apply bind_raise.
  - left. split; [reflexivity|].
    apply provisioning_None in Hp as (Hp & Hch & Hs & Hr & Hc).
    rewrite process_request_reraises.
    now rewrite !bool_decide_eq_false_2.
Qed.

Lemma stored_step_log (f : pyval -> pyval -> pyval -> result pydict)
    (op : vendor_op) (step : M pydict) tr r tr1 :
  (forall sid, get_param_value (asset req) "subscriptionId" = Ok sid ->
               vendor_call_of req (EvVendorCall op (VDict ∅) (Some sid))) ->
  step tr
  = match get_param_value (asset req) "subscriptionId" with
    | Raise e => (Raise e, tr)
    | Ok sid =>
        match get_credentials E (marketplace_id req) (configuration (asset req))
                              (connection_type (asset req)) with
        | Raise e => (Raise e, tr ++ [credentials_lookup req])
        | Ok creds =>
            (f creds (VDict ∅) sid,
             tr ++ [credentials_lookup req; EvVendorCall op (VDict ∅) (Some sid)])
        end
    end ->
  (let* _ := step in ret tt) tr = (r, tr1) ->
  exists suf, tr1 = tr ++ suf /\ phase_log E req (returned r) suf.
Proof.
  intros Hv Hstep. unfold bind, ret. rewrite Hstep.
  destruct (get_param_value _ _) as [sid|e] eqn:Hsid.
  - specialize (Hv sid eq_refl).
    destruct (get_credentials E _ _ _) as [creds|e].
    + destruct (f creds (VDict ∅) sid); intros [= <- <-];
        eexists; (split; [reflexivity|]); now constructor.
    + intros [= <- <-]. eexists. split; [reflexivity|]. constructor.
  - intros [= <- <-]. exists []. split; [now rewrite app_nil_r|]. constructor.
Qed.

(** Whatever the collaborators answer, the part of a handler before its
    activation step leaves one of the logs of [phase_log]. *)
Lemma provisioning_log phase kind tr r tr1 :
  provisioning E req = Some (phase, kind) ->
  phase tr = (r, tr1) ->
  exists suf, tr1 = tr ++ suf /\ phase_log E req (returned r) suf.
Proof.
  unfold provisioning.
  repeat case_bool_decide; intros Hp; inversion Hp; subst; clear Hp.
  - (* purchase *)
    unfold bind, ret.
    pose proof (_create_subscription_cases E req tr) as Hcases.
    assert (Hv : vendor_call_of req (EvVendorCall CreateSubscription (VDict ∅) None))
      by (left; split; [assumption | reflexivity]).
    destruct (get_credentials E _ _ _) as [creds|e] eqn:Hcred.
    + destruct (create_subscription E creds (VDict ∅)) as [info|e] eqn:Hcall.
      * destruct Hcases as [(tenant & Hten & Htruthy & ->) | (e & _ & ->)].
        -- intros Heq.
           exists (create_calls req
                   ++ [EvUpdateParameters (req_id req) (subscriptionId_params tenant)]).
           assert (Hlog : phase_log E req (returned r)
                            (create_calls req
                             ++ [EvUpdateParameters (req_id req)
                                   (subscriptionId_params tenant)])).
           { apply (phase_persisted E req _ _ _ Hv).
             left. split; [assumption|]. exists creds, info, tenant.
             repeat split; assumption. }
           destruct (update_parameters E _ _); inversion Heq; subst; auto.
        -- intros [= <- <-]. eexists. split; [reflexivity|].
           now apply phase_vendor_called.
      * rewrite Hcases. intros [= <- <-]. eexists. split; [reflexivity|].
        now apply phase_vendor_called.
    + rewrite Hcases. intros [= <- <-]. eexists. split; [reflexivity|]. constructor.
  - (* change *)
    unfold bind at 1. unfold check_if_downsize.
    destruct (is_downsize_request E _).
    { unfold raise. intros [= <- <-]. exists []. split; [now rewrite app_nil_r|].
      constructor. }
    unfold ret at 1. rewrite _change_subscription_eval.
    destruct (get_param_value _ _) as [sid|e] eqn:Hsid.
    2:{ intros [= <- <-]. exists []. split; [now rewrite app_nil_r|]. constructor. }
    assert (Hv : vendor_call_of req (EvVendorCall ChangeSubscription (VDict ∅) (Some sid))).
    { right. exists sid. split; [exact Hsid|]. left. auto. }
    destruct (get_credentials E _ _ _) as [creds|e] eqn:Hcred.
    2:{ intros [= <- <-]. eexists. split; [reflexivity|]. constructor. }
    destruct (change_subscription E creds (VDict ∅) sid) as [info|e] eqn:Hcall.
    2:{ intros [= <- <-]. eexists. split; [reflexivity|].
        now apply phase_vendor_called. }
    destruct (_check_update_response_cases E req info (tr ++ change_calls req sid))
      as [(s & Hstatus & Hlow & ->) | (r' & ->)].
    + intros [= <- <-]. rewrite <- app_assoc. eexists. split; [reflexivity|].
      apply (phase_persisted E req _ _ _ Hv).
      right. split; [assumption|]. exists sid, creds, info, s.
      repeat split; assumption.
    + intros [= <- <-]. eexists. split; [reflexivity|].
      now apply phase_vendor_called.
  - (* suspend *)
    apply stored_step_log with (f := suspend_subscription E) (op := SuspendSubscription).
    + intros sid Hsid. right. exists sid. split; [exact Hsid|]. right. left. auto.
    + apply _suspend_subscription_eval.
  - (* resume *)
    apply stored_step_log with (f := resume_subscription E) (op := ResumeSubscription).
    + intros sid Hsid. right. exists sid. split; [exact Hsid|]. right. right. left. auto.
    + apply _resume_subscription_eval.
  - (* cancel *)
    apply stored_step_log with (f := cancel_subscription E) (op := CancelSubscription).
    + intros sid Hsid. right. exists sid. split; [exact Hsid|]. right. right. right. auto.
    + apply _cancel_subscription_eval.
Qed.

End DispatchLogLemmas.

Section DispatchLogTheorems.

Variable E : Collaborators.
Variable req : Fulfillment.

Lemma vendor_call_of_inv v :
  vendor_call_of req v -> exists op sid, v = EvVendorCall op (VDict ∅) sid.
Proof.
  intros [[_ ->] | (sid & _ & [[_ ->] | [[_ ->] | [[_ ->] | [_ ->]]]])]; eauto.
Qed.

Lemma persisted_inv u :
  persisted E req u -> exists ps, u = EvUpdateParameters (req_id req) ps.
Proof.
  intros [(_ & creds & info & tenant & _ & _ & _ & _ & ->)
         | (_ & sid & creds & info & s & _ & _ & _ & _ & _ & ->)]; eauto.
Qed.

(** The log of a dispatch: nothing, or the log of the part before the
    activation step, followed by one template lookup when that part
    returned. *)
Lemma process_request_log tr :
  exists suf,
    snd (process_request E req tr) = tr ++ suf
    /\ (suf = []
        \/ exists b base,
             phase_log E req b base
             /\ (suf = base /\ b = false
                 \/ b = true /\ exists kind, suf = base ++ [template_lookup req kind])).
Proof.
  destruct (process_request_cases E req tr)
    as [[_ ->] | (phase & kind & r & tr1 & Hp & Hphase & ->)].
  - exists []. split; [now rewrite app_nil_r | now left].
  - destruct (provisioning_log E req phase kind tr r tr1 Hp Hphase)
      as (base & -> & Hlog).
    destruct r as [[]|e]; simpl in Hlog |- *.
    + exists (base ++ [template_lookup req kind]).
      split; [now rewrite app_assoc|]. right. exists true, base. eauto.
    + exists base. split; [reflexivity|]. right. exists false, base. eauto.
Qed.

End DispatchLogTheorems.

(** X10.  Whatever the request and the collaborators, one dispatch only
    appends to the log, and what it appends is in the order credentials
    lookup, vendor call, [update_parameters], template lookup, each at most
    once and none after a missing earlier one: there is no second vendor
    call and no retry. *)
Theorem dispatch_calls_in_order
    (E : Collaborators) (req : Fulfillment) (tr : list event) :
  exists suf,
    snd (process_request E req tr) = tr ++ suf /\ in_call_order suf = true.
Proof.
  destruct (process_request_log E req tr) as (suf & Hsnd & Hshape).
  exists suf. split; [exact Hsnd|].
  destruct Hshape as [-> | (b & base & Hlog & Hsuf)]; [reflexivity|].
  destruct Hsuf as [[-> ->] | (-> & kind & ->)].
  - inversion Hlog as [ | | b v Hv | b v u Hv Hu ]; subst; try reflexivity.
    + destruct (vendor_call_of_inv req v Hv) as (op & sid & ->). reflexivity.
    + destruct (vendor_call_of_inv req v Hv) as (op & sid & ->).
      destruct (persisted_inv E req u Hu) as (ps & ->). reflexivity.
  - inversion Hlog as [ | | b v Hv | b v u Hv Hu ]; subst.
    + destruct (vendor_call_of_inv req v Hv) as (op & sid & ->). reflexivity.
    + destruct (vendor_call_of_inv req v Hv) as (op & sid & ->).
      destruct (persisted_inv E req u Hu) as (ps & ->). reflexivity.
Qed.

(** X12.  Every [update_parameters] call of a dispatch is the one of a
    successful purchase ([subscriptionId], the truthy [tenantId] the vendor
    returned) or of a successful change ([creationDate], the status code
    lowering to ["success"]); suspend, resume and cancel persist nothing. *)
Theorem parameters_persisted_only_on_success
    (E : Collaborators) (req : Fulfillment) (tr suf : list event)
    (request : string) (ps : list Param) :
  snd (process_request E req tr) = tr ++ suf ->
  In (EvUpdateParameters request ps) suf ->
  persisted E req (EvUpdateParameters request ps).
Proof.
  intros Hsnd Hin.
  destruct (process_request_log E req tr) as (suf' & Hsnd' & Hshape).
  rewrite Hsnd in Hsnd'. apply app_inv_head in Hsnd'. subst suf'.
  destruct Hshape as [-> | (b & base & Hlog & Hsuf)]; [destruct Hin|].
  assert (Hbase : In (EvUpdateParameters request ps) base).
  { destruct Hsuf as [[-> _] | (_ & kind & ->)]; [exact Hin|].
    apply in_app_or in Hin as [Hin | [Hin | []]]; [exact Hin | discriminate]. }
  inversion Hlog as [ | | b' v Hv | b' v u Hv Hu ]; subst; simpl in Hbase.
  - destruct Hbase.
  - destruct Hbase as [Hb | []]. discriminate.
  - destruct (vendor_call_of_inv req v Hv) as (op & sid & ->).
    destruct Hbase as [Hb | [Hb | []]]; discriminate.
  - destruct (vendor_call_of_inv req v Hv) as (op & sid & ->).
    destruct Hbase as [Hb | [Hb | [<- | []]]]; try discriminate. exact Hu.
Qed.

Lemma parameters_persisted_only_on_success_witness :
  let E := Sample.collaborators {[ "tenantId" := VStr "T1" ]} Sample.all_templates in
  persisted E Scenario.purchase_request
    (EvUpdateParameters "PR-1" (subscriptionId_params (VStr "T1"))).
Proof.
  intros E.
  apply (parameters_persisted_only_on_success E Scenario.purchase_request []
           [ EvGetCredentials "MP-1" (VDict ∅) "production";
             EvVendorCall CreateSubscription (VDict ∅) None;
             EvUpdateParameters "PR-1" (subscriptionId_params (VStr "T1"));
             EvGetActivationTemplate (VDict ∅) "MP-1" "activationTemplate" ]).
  - vm_compute. reflexivity.
  - simpl. tauto.
Defined.

(** X13.  Every vendor call of a dispatch is the operation of the request
    type, with the empty payload and, but for a purchase, the value of the
    stored [subscriptionId] parameter. *)
Theorem vendor_call_matches_request
    (E : Collaborators) (req : Fulfillment) (tr suf : list event)
    (op : vendor_op) (data : pyval) (sid : option pyval) :
  snd (process_request E req tr) = tr ++ suf ->
  In (EvVendorCall op data sid) suf ->
  vendor_call_of req (EvVendorCall op data sid).
Proof.
  intros Hsnd Hin.
  destruct (process_request_log E req tr) as (suf' & Hsnd' & Hshape).
  rewrite Hsnd in Hsnd'. apply app_inv_head in Hsnd'. subst suf'.
  destruct Hshape as [-> | (b & base & Hlog & Hsuf)]; [destruct Hin|].
  assert (Hbase : In (EvVendorCall op data sid) base).
  { destruct Hsuf as [[-> _] | (_ & kind & ->)]; [exact Hin|].
    apply in_app_or in Hin as [Hin | [Hin | []]]; [exact Hin | discriminate]. }
  inversion Hlog as [ | | b' v Hv | b' v u Hv Hu ]; subst; simpl in Hbase.
  - destruct Hbase.
  - destruct Hbase as [Hb | []]. discriminate.
  - destruct Hbase as [Hb | [<- | []]]; [discriminate | exact Hv].
  - destruct (persisted_inv E req u Hu) as (ps & ->).
    destruct Hbase as [Hb | [<- | [Hb | []]]]; try discriminate. exact Hv.
Qed.

Lemma vendor_call_matches_request_witness :
  let E := Sample.collaborators {[ "statusCode" := VStr "success" ]}
             Sample.all_templates in
  vendor_call_of Scenario.cancel_request
    (EvVendorCall CancelSubscription (VDict ∅) (Some (VStr "T1"))).
Proof.
  intros E.
  apply (vendor_call_matches_request E Scenario.cancel_request []
           [ EvGetCredentials "MP-1" (VDict ∅) "production";
             EvVendorCall CancelSubscription (VDict ∅) (Some (VStr "T1"));
             EvGetActivationTemplate (VDict ∅) "MP-1" "suspendSubscriptionTemplate" ]).
  - vm_compute. reflexivity.
  - simpl. tauto.
Defined.

(** ** From the steps of a handler to the dispatcher *)

Section PhaseToDispatch.

Variable E : Collaborators.
Variable req : Fulfillment.

Lemma provisioning_purchase :
  req_type req = "purchase" ->
  provisioning E req
  = Some (let* _ := _create_subscription E req in ret tt, "activationTemplate").
Proof. intros Ht. unfold provisioning. now rewrite Ht. Qed.

Lemma provisioning_change :
  req_type req = "change" ->
  provisioning E req
  = Some (let* _ := check_if_downsize E req in _change_subscription E req,
          "activationTemplate").
Proof. intros Ht. unfold provisioning. now rewrite Ht. Qed.

Lemma provisioning_suspend :
  req_type req = "suspend" ->
  provisioning E req
  = Some (let* _ := _suspend_subscription E req in ret tt,
          "suspendSubscriptionTemplate").
Proof. intros Ht. unfold provisioning. now rewrite Ht. Qed.

Lemma provisioning_resume :
  req_type req = "resume" ->
  provisioning E req
  = Some (let* _ := _resume_subscription E req in ret tt, "activationTemplate").
Proof. intros Ht. unfold provisioning. now rewrite Ht. Qed.

Lemma provisioning_cancel :
  req_type req = "cancel" ->
  provisioning E req
  = Some (let* _ := _cancel_subscription E req in ret tt,
          "suspendSubscriptionTemplate").
Proof. intros Ht. unfold provisioning. now rewrite Ht. Qed.

(** The dispatcher, from what the part before the activation step does. *)
Lemma process_request_phase phase kind tr :
  provisioning E req = Some (phase, kind) ->
  process_request E req tr
  = match phase tr with
    | (Ok _, tr1) => (dispatched (activation_outcome E req kind),
                      tr1 ++ [template_lookup req kind])
    | (Raise e, tr1) => (Raise e, tr1)
    end.
Proof.
  intros Hp.
  destruct (process_request_cases E req tr)
    as [[Hnone _] | (phase' & kind' & r & tr1 & Hp' & Hphase & ->)];
    [congruence|].
  rewrite Hp in Hp'. inversion Hp'; subst. rewrite Hphase.
  now destruct r.
Qed.

(** The change handler's part before the activation step, past the guard. *)
Lemma change_phase_not_downsize tr :
  is_downsize_request E (items (asset req)) = false ->
  (let* _ := check_if_downsize E req in _change_subscription E req) tr
  = _change_subscription E req tr.
Proof.
  intros Hguard. unfold bind at 1. unfold check_if_downsize.
  now rewrite Hguard.
Qed.

Lemma vendor_step_phase {A} (step : M A) tr :
  (let* _ := step in ret tt) tr
  = match step tr with
    | (Ok _, tr1) => (Ok tt, tr1)
    | (Raise e, tr1) => (Raise e, tr1)
    end.
Proof. unfold bind, ret. now destruct (step tr) as [[a|e] tr1]. Qed.

End PhaseToDispatch.

(** X3.  An exception raised by the part of a handler that precedes its
    activation step leaves the dispatcher as it is, whatever its class, with
    the log as that part left it: no template lookup follows. *)
Theorem failure_before_activation_propagates
    (E : Collaborators) (req : Fulfillment) (phase : M unit) (kind : string)
    (tr tr1 : list event) (e : exn) :
  provisioning E req = Some (phase, kind) ->
  phase tr = (Raise e, tr1) ->
  process_request E req tr = (Raise e, tr1).
Proof.
  intros Hp Hphase.
  now rewrite (process_request_phase E req phase kind tr Hp), Hphase.
Qed.

Lemma failure_before_activation_propagates_witness :
  let E := Sample.collaborators (Scenario.failed "INVALID_DATA" "bad address")
             Sample.all_templates in
  process_request E Scenario.purchase_request []
  = (Raise (FailRequest (VStr "bad address")),
     [ EvGetCredentials "MP-1" (VDict ∅) "production";
       EvVendorCall CreateSubscription (VDict ∅) None ]).
Proof.
  intros E.
  apply (failure_before_activation_propagates E Scenario.purchase_request
           (let* _ := _create_subscription E Scenario.purchase_request in ret tt)
           "activationTemplate").
  - reflexivity.
  - vm_compute. reflexivity.
Defined.

(** X1.  Cancel, suspend and resume never read the dictionary the vendor
    returns: once the stored subscriptionId and the credentials are there
    and the vendor call returns, whatever it returns (a structured error
    included), the dispatcher ends with the outcome of the template
    resolution, after exactly the credentials lookup, the vendor call and
    the template lookup. *)
Theorem lifecycle_handlers_ignore_vendor_result
    (E : Collaborators) (req : Fulfillment) (tr : list event)
    (sid creds : pyval) (info : pydict) :
  get_param_value (asset req) "subscriptionId" = Ok sid ->
  get_credentials E (marketplace_id req) (configuration (asset req))
                  (connection_type (asset req)) = Ok creds ->
  (req_type req = "cancel" ->
   cancel_subscription E creds (VDict ∅) sid = Ok info ->
   process_request E req tr
   = (dispatched (activation_outcome E req "suspendSubscriptionTemplate"),
      tr ++ [ credentials_lookup req;
              EvVendorCall CancelSubscription (VDict ∅) (Some sid);
              template_lookup req "suspendSubscriptionTemplate" ]))
  /\ (req_type req = "suspend" ->
      suspend_subscription E creds (VDict ∅) sid = Ok info ->
      process_request E req tr
      = (dispatched (activation_outcome E req "suspendSubscriptionTemplate"),
         tr ++ [ credentials_lookup req;
                 EvVendorCall SuspendSubscription (VDict ∅) (Some sid);
                 template_lookup req "suspendSubscriptionTemplate" ]))
  /\ (req_type req = "resume" ->
      resume_subscription E creds (VDict ∅) sid = Ok info ->
      process_request E req tr
      = (dispatched (activation_outcome E req "activationTemplate"),
         tr ++ [ credentials_lookup req;
                 EvVendorCall ResumeSubscription (VDict ∅) (Some sid);
                 template_lookup req "activationTemplate" ])).
Proof.
  intros Hsid Hcred. repeat split; intros Htype Hcall.
  - rewrite (process_request_phase E req _ _ tr (provisioning_cancel E req Htype)).
    rewrite vendor_step_phase, _cancel_subscription_eval, Hsid, Hcred, Hcall.
    now rewrite <- app_assoc.
  - rewrite (process_request_phase E req _ _ tr (provisioning_suspend E req Htype)).
    rewrite vendor_step_phase, _suspend_subscription_eval, Hsid, Hcred, Hcall.
    now rewrite <- app_assoc.
  - rewrite (process_request_phase E req _ _ tr (provisioning_resume E req Htype)).
    rewrite vendor_step_phase, _resume_subscription_eval, Hsid, Hcred, Hcall.
    now rewrite <- app_assoc.
Qed.

Lemma lifecycle_handlers_ignore_vendor_result_witness :
  let E := Sample.collaborators (Sample.structured_error "INVALID_DATA" "no such tenant")
             Sample.all_templates in
  process_request E Scenario.suspend_request []
  = (Ok (Some {| template_id := VStr "TL-001" |}),
     [ EvGetCredentials "MP-1" (VDict ∅) "production";
       EvVendorCall SuspendSubscription (VDict ∅) (Some (VStr "T1"));
       EvGetActivationTemplate (VDict ∅) "MP-1" "suspendSubscriptionTemplate" ]).
Proof.
  intros E.
  apply (proj1 (proj2 (lifecycle_handlers_ignore_vendor_result E
                         Scenario.suspend_request [] (VStr "T1") (VStr "api-key")
                         (Sample.structured_error "INVALID_DATA" "no such tenant")
                         eq_refl eq_refl)));
    reflexivity.
Defined.

(** X2.  A change (past the downsize guard), suspend, resume or cancel whose
    asset has no parameter [subscriptionId] raises the AttributeError of
    [None.value] out of the dispatcher, and no collaborator is called. *)
Theorem missing_subscriptionId_raises_before_any_call
    (E : Collaborators) (req : Fulfillment) (tr : list event) :
  get_param_by_id (asset req) "subscriptionId" = None ->
  (req_type req = "change" /\ is_downsize_request E (items (asset req)) = false)
  \/ req_type req = "suspend" \/ req_type req = "resume"
  \/ req_type req = "cancel" ->
  process_request E req tr = (Raise (no_attribute VNone "value"), tr).
Proof.
  intros Hnone Htype.
  assert (Hsid : get_param_value (asset req) "subscriptionId"
                 = Raise (no_attribute VNone "value"))
    by (unfold get_param_value; now rewrite Hnone).
  destruct Htype as [[Htype Hguard] | [Htype | [Htype | Htype]]].
  - rewrite (process_request_phase E req _ _ tr (provisioning_change E req Htype)).
    now rewrite change_phase_not_downsize, _change_subscription_eval, Hsid.
  - rewrite (process_request_phase E req _ _ tr (provisioning_suspend E req Htype)).
    now rewrite vendor_step_phase, _suspend_subscription_eval, Hsid.
  - rewrite (process_request_phase E req _ _ tr (provisioning_resume E req Htype)).
    now rewrite vendor_step_phase, _resume_subscription_eval, Hsid.
  - rewrite (process_request_phase E req _ _ tr (provisioning_cancel E req Htype)).
    now rewrite vendor_step_phase, _cancel_subscription_eval, Hsid.
Qed.

Lemma missing_subscriptionId_raises_before_any_call_witness :
  process_request (Sample.collaborators ∅ Sample.all_templates)
                  (Faulty.bare_request "resume") []
  = (Raise (PyError "AttributeError"
              (VStr "'NoneType' object has no attribute 'value'")), []).
Proof.
  apply (missing_subscriptionId_raises_before_any_call
           (Sample.collaborators ∅ Sample.all_templates)
           (Faulty.bare_request "resume") []).
  - reflexivity.
  - right. right. left. reflexivity.
Defined.

(** X4.  When the credentials lookup raises, every handler that reaches it
    raises the same exception out of the dispatcher, and the lookup is the
    only call made: the vendor is not called. *)
Theorem credentials_failure_stops_before_vendor_call
    (E : Collaborators) (req : Fulfillment) (tr : list event) (e : exn) :
  get_credentials E (marketplace_id req) (configuration (asset req))
                  (connection_type (asset req)) = Raise e ->
  req_type req = "purchase"
  \/ ((exists sid, get_param_value (asset req) "subscriptionId" = Ok sid)
      /\ ((req_type req = "change"
           /\ is_downsize_request E (items (asset req)) = false)
          \/ req_type req = "suspend" \/ req_type req = "resume"
          \/ req_type req = "cancel")) ->
  process_request E req tr = (Raise e, tr ++ [credentials_lookup req]).
Proof.
  intros Hcred [Htype | [[sid Hsid] [[Htype Hguard] | [Htype | [Htype | Htype]]]]].
  - rewrite (process_request_phase E req _ _ tr (provisioning_purchase E req Htype)).
    rewrite vendor_step_phase.
    pose proof (_create_subscription_cases E req tr) as Hcases.
    rewrite Hcred in Hcases. now rewrite Hcases.
  - rewrite (process_request_phase E req _ _ tr (provisioning_change E req Htype)).
    now rewrite change_phase_not_downsize, _change_subscription_eval, Hsid, Hcred.
  - rewrite (process_request_phase E req _ _ tr (provisioning_suspend E req Htype)).
    now rewrite vendor_step_phase, _suspend_subscription_eval, Hsid, Hcred.
  - rewrite (process_request_phase E req _ _ tr (provisioning_resume E req Htype)).
    now rewrite vendor_step_phase, _resume_subscription_eval, Hsid, Hcred.
  - rewrite (process_request_phase E req _ _ tr (provisioning_cancel E req Htype)).
    now rewrite vendor_step_phase, _cancel_subscription_eval, Hsid, Hcred.
Qed.

Lemma credentials_failure_stops_before_vendor_call_witness :
  let E := Faulty.credentials (Sample.collaborators ∅ Sample.all_templates)
             (PyError "KeyError" (VStr "api_key")) in
  process_request E Scenario.purchase_request []
  = (Raise (PyError "KeyError" (VStr "api_key")),
     [ EvGetCredentials "MP-1" (VDict ∅) "production" ]).
Proof.
  intros E.
  apply (credentials_failure_stops_before_vendor_call E Scenario.purchase_request []).
  - reflexivity.
  - left. reflexivity.
Defined.

(** X5.  When the vendor call itself raises, the dispatcher raises the same
    exception; the credentials lookup and that vendor call are the only
    calls: nothing is persisted and no template is looked up. *)
Theorem vendor_failure_propagates
    (E : Collaborators) (req : Fulfillment) (tr : list event)
    (creds : pyval) (e : exn) :
  get_credentials E (marketplace_id req) (configuration (asset req))
                  (connection_type (asset req)) = Ok creds ->
  (req_type req = "purchase" ->
   create_subscription E creds (VDict ∅) = Raise e ->
   process_request E req tr = (Raise e, tr ++ create_calls req))
  /\ (forall sid,
        get_param_value (asset req) "subscriptionId" = Ok sid ->
        (req_type req = "change" ->
         is_downsize_request E (items (asset req)) = false ->
         change_subscription E creds (VDict ∅) sid = Raise e ->
         process_request E req tr = (Raise e, tr ++ change_calls req sid))
        /\ (req_type req = "suspend" ->
            suspend_subscription E creds (VDict ∅) sid = Raise e ->
            process_request E req tr
            = (Raise e, tr ++ [ credentials_lookup req;
                                EvVendorCall SuspendSubscription (VDict ∅) (Some sid) ]))
        /\ (req_type req = "resume" ->
            resume_subscription E creds (VDict ∅) sid = Raise e ->
            process_request E req tr
            = (Raise e, tr ++ [ credentials_lookup req;
                                EvVendorCall ResumeSubscription (VDict ∅) (Some sid) ]))
        /\ (req_type req = "cancel" ->
            cancel_subscription E creds (VDict ∅) sid = Raise e ->
            process_request E req tr
            = (Raise e, tr ++ [ credentials_lookup req;
                                EvVendorCall CancelSubscription (VDict ∅) (Some sid) ]))).
Proof.
  intros Hcred. split.
  - intros Htype Hcall.
    rewrite (process_request_phase E req _ _ tr (provisioning_purchase E req Htype)).
    rewrite vendor_step_phase.
    pose proof (_create_subscription_cases E req tr) as Hcases.
    rewrite Hcred, Hcall in Hcases. now rewrite Hcases.
  - intros sid Hsid. repeat split.
    + intros Htype Hguard Hcall.
      rewrite (process_request_phase E req _ _ tr (provisioning_change E req Htype)).
      now rewrite change_phase_not_downsize, _change_subscription_eval,
        Hsid, Hcred, Hcall.
    + intros Htype Hcall.
      rewrite (process_request_phase E req _ _ tr (provisioning_suspend E req Htype)).
      now rewrite vendor_step_phase, _suspend_subscription_eval, Hsid, Hcred, Hcall.
    + intros Htype Hcall.
      rewrite (process_request_phase E req _ _ tr (provisioning_resume E req Htype)).
      now rewrite vendor_step_phase, _resume_subscription_eval, Hsid, Hcred, Hcall.
    + intros Htype Hcall.
      rewrite (process_request_phase E req _ _ tr (provisioning_cancel E req Htype)).
      now rewrite vendor_step_phase, _cancel_subscription_eval, Hsid, Hcred, Hcall.
Qed.

Lemma vendor_failure_propagates_witness :
  let E := Faulty.vendor (Sample.collaborators ∅ Sample.all_templates)
             (PyError "ConnectionError" (VStr "vendor unreachable")) in
  process_request E Scenario.cancel_request []
  = (Raise (PyError "ConnectionError" (VStr "vendor unreachable")),
     [ EvGetCredentials "MP-1" (VDict ∅) "production";
       EvVendorCall CancelSubscription (VDict ∅) (Some (VStr "T1")) ]).
Proof.
  intros E.
  pose proof (vendor_failure_propagates E Scenario.cancel_request []
                (VStr "api-key") (PyError "ConnectionError" (VStr "vendor unreachable"))
                eq_refl) as [_ Hstored].
  destruct (Hstored (VStr "T1") eq_refl) as (_ & _ & _ & Hcancel).
  apply Hcancel; reflexivity.
Defined.

(** X6.  When [update_parameters] raises in a successful purchase or
    change, the dispatcher raises that exception as it is, a [FailRequest]
    included, although the vendor step succeeded; no template lookup
    follows. *)
Theorem update_parameters_failure_propagates
    (E : Collaborators) (req : Fulfillment) (tr : list event)
    (request : string) (ps : list Param) (e : exn) :
  persisted E req (EvUpdateParameters request ps) ->
  (req_type req = "change" -> is_downsize_request E (items (asset req)) = false) ->
  update_parameters E request ps = Raise e ->
  exists v,
    vendor_call_of req v
    /\ process_request E req tr
       = (Raise e, tr ++ [credentials_lookup req; v; EvUpdateParameters request ps]).
Proof.
  intros [(Htype & creds & info & tenant & Hcred & Hcall & Hten & Htruthy & Heq)
         | (Htype & sid & creds & info & s & Hsid & Hcred & Hcall & Hstatus & Hlow & Heq)]
         Hguard Hupd; inversion Heq; subst; clear Heq.
  - exists (EvVendorCall CreateSubscription (VDict ∅) None).
    split; [left; auto|].
    rewrite (process_request_phase E req _ _ tr (provisioning_purchase E req Htype)).
    rewrite vendor_step_phase.
    pose proof (_create_subscription_cases E req tr) as Hcases.
    rewrite Hcred, Hcall in Hcases.
    destruct Hcases as [(tenant' & Hten' & _ & ->) | (e' & Hfalsy & _)].
    + assert (tenant' = tenant) as -> by congruence.
      unfold subscriptionId_params. rewrite Hupd.
      reflexivity.
    + rewrite (Hfalsy tenant Hten) in Htruthy. discriminate.
  - exists (EvVendorCall ChangeSubscription (VDict ∅) (Some sid)).
    split; [right; exists sid; split; [exact Hsid | left; auto]|].
    rewrite (process_request_phase E req _ _ tr (provisioning_change E req Htype)).
    rewrite change_phase_not_downsize by auto.
    rewrite _change_subscription_eval, Hsid, Hcred, Hcall.
    rewrite (_check_update_response_success E req info s _ Hstatus Hlow).
    unfold creationDate_params. rewrite Hupd.
    unfold change_calls, credentials_lookup. now rewrite <- app_assoc.
Qed.

Lemma update_parameters_failure_propagates_witness :
  let E := Faulty.platform
             (Sample.collaborators {[ "tenantId" := VStr "T1" ]} Sample.all_templates)
             (FailRequest (VStr "parameter rejected")) in
  exists v,
    vendor_call_of Scenario.purchase_request v
    /\ process_request E Scenario.purchase_request []
       = (Raise (FailRequest (VStr "parameter rejected")),
          [ EvGetCredentials "MP-1" (VDict ∅) "production"; v;
            EvUpdateParameters "PR-1" (subscriptionId_params (VStr "T1")) ]).
Proof.
  intros E.
  apply (update_parameters_failure_propagates E Scenario.purchase_request []
           "PR-1" (subscriptionId_params (VStr "T1"))
           (FailRequest (VStr "parameter rejected"))).
  - left. split; [reflexivity|].
    exists (VStr "api-key"), {[ "tenantId" := VStr "T1" ]}, (VStr "T1").
    repeat split; vm_compute; reflexivity.
  - discriminate.
  - reflexivity.
Defined.

(** X7.  A create result with an empty [tenantId] and no usable structured
    error ends in a builtin exception, neither a skip nor a fail: KeyError
    when there is no [errors] key, IndexError when the list is empty,
    AttributeError when its first entry is no dictionary. *)
Theorem create_failure_without_structured_error
    (E : Collaborators) (req : Fulfillment) (tr : list event)
    (creds : pyval) (info : pydict) (tenant : pyval) :
  get_credentials E (marketplace_id req) (configuration (asset req))
                  (connection_type (asset req)) = Ok creds ->
  create_subscription E creds (VDict ∅) = Ok info ->
  info !! "tenantId" = Some tenant ->
  truthy tenant = false ->
  (info !! "errors" = None ->
   _create_subscription E req tr
   = (Raise (PyError "KeyError" (VStr "errors")), tr ++ create_calls req))
  /\ (info !! "errors" = Some (VList []) ->
      _create_subscription E req tr
      = (Raise (PyError "IndexError" (VStr "list index out of range")),
         tr ++ create_calls req))
  /\ (forall first rest,
        info !! "errors" = Some (VList (first :: rest)) ->
        (forall d, first <> VDict d) ->
        _create_subscription E req tr
        = (Raise (no_attribute first "get"), tr ++ create_calls req)).
Proof.
  intros Hcred Hcall Hten Hfalsy.
  assert (Hread : forall e,
             error_code_is_unknown info (tr ++ create_calls req)
             = (Raise e, tr ++ create_calls req) ->
             _create_subscription E req tr = (Raise e, tr ++ create_calls req)).
  { intros e He.
    rewrite (_create_subscription_read E req creds info tr Hcred Hcall).
    unfold bind at 1. unfold lift at 1. unfold dict_getitem at 1.
    rewrite Hten. cbv beta iota. rewrite Hfalsy.
    now apply bind_raise. }
  repeat split.
  - intros Herr. apply Hread.
    unfold error_code_is_unknown, first_error_get, bind, lift, dict_getitem.
    now rewrite Herr.
  - intros Herr. apply Hread.
    unfold error_code_is_unknown, first_error_get, bind, lift, dict_getitem.
    now rewrite Herr.
  - intros first rest Herr Hnd. apply Hread.
    unfold error_code_is_unknown, first_error_get, bind, lift, dict_getitem.
    rewrite Herr. simpl py_getitem_0. cbv beta iota.
    destruct first; try reflexivity. now destruct (Hnd d).
Qed.

Lemma create_failure_without_structured_error_witness :
  let info : pydict := {[ "tenantId" := VStr "" ]} in
  let E := Sample.collaborators info Sample.all_templates in
  _create_subscription E Scenario.purchase_request []
  = (Raise (PyError "KeyError" (VStr "errors")),
     [ EvGetCredentials "MP-1" (VDict ∅) "production";
       EvVendorCall CreateSubscription (VDict ∅) None ]).
Proof.
  intros info E.
  assert (Hten : info !! "tenantId" = Some (VStr "")) by (vm_compute; reflexivity).
  apply (proj1 (create_failure_without_structured_error E Scenario.purchase_request
                  [] (VStr "api-key") info (VStr "") eq_refl eq_refl Hten eq_refl)).
  vm_compute. reflexivity.
Defined.

(** X8.  The outcome check of a change on a malformed result: a status
    code that is no string raises AttributeError (from [.lower()]); with a
    non-success status, an empty [errors] list raises IndexError, a first
    entry that is no dictionary AttributeError, and a null [errors] value
    TypeError.  None of these calls a collaborator. *)
Theorem update_check_on_malformed_result
    (E : Collaborators) (req : Fulfillment) (info : pydict) (tr : list event) :
  (forall v,
      get_status_code E info = Ok v -> (forall s, v <> VStr s) ->
      _check_update_response E info req tr = (Raise (no_attribute v "lower"), tr))
  /\ (forall s,
        get_status_code E info = Ok (VStr s) -> py_lower s <> "success" ->
        (info !! "errors" = Some (VList []) ->
         _check_update_response E info req tr
         = (Raise (PyError "IndexError" (VStr "list index out of range")), tr))
        /\ (forall first rest,
              info !! "errors" = Some (VList (first :: rest)) ->
              (forall d, first <> VDict d) ->
              _check_update_response E info req tr
              = (Raise (no_attribute first "get"), tr))
        /\ (info !! "errors" = Some VNone ->
            _check_update_response E info req tr
            = (Raise (PyError "TypeError"
                        (VStr "'NoneType' object is not subscriptable")), tr))).
Proof.
  split.
  - intros v Hstatus Hns. unfold _check_update_response, bind, lift.
    rewrite Hstatus. destruct v; try reflexivity. now destruct (Hns s).
  - intros s Hstatus Hne.
    assert (Hread : forall errors e,
               info !! "errors" = Some errors ->
               error_code_is_unknown info tr = (Raise e, tr) ->
               _check_update_response E info req tr = (Raise e, tr)).
    { intros errors e Herr He.
      rewrite (_check_update_response_not_success E req info s tr Hstatus Hne).
      unfold dict_contains at 1. rewrite Herr. now apply bind_raise. }
    repeat split.
    + intros Herr. apply (Hread _ _ Herr).
      unfold error_code_is_unknown, first_error_get, bind, lift, dict_getitem.
      now rewrite Herr.
    + intros first rest Herr Hnd. apply (Hread _ _ Herr).
      unfold error_code_is_unknown, first_error_get, bind, lift, dict_getitem.
      rewrite Herr. simpl py_getitem_0. cbv beta iota.
      destruct first; try reflexivity. now destruct (Hnd d).
    + intros Herr. apply (Hread _ _ Herr).
      unfold error_code_is_unknown, first_error_get, bind, lift, dict_getitem.
      now rewrite Herr.
Qed.

Lemma update_check_on_malformed_result_witness :
  let info : pydict := {[ "errors" := VList [] ]} in
  let E := Sample.collaborators info Sample.all_templates in
  _check_update_response E info Scenario.change_request []
  = (Raise (PyError "IndexError" (VStr "list index out of range")), []).
Proof.
  intros info E.
  assert (Hstatus : get_status_code E info = Ok (VStr "")) by (vm_compute; reflexivity).
  assert (Hne : py_lower "" <> "success") by (vm_compute; discriminate).
  apply (proj1 (proj2 (update_check_on_malformed_result E Scenario.change_request
                         info []) "" Hstatus Hne)).
  vm_compute. reflexivity.
Defined.

(** X9.  A change whose vendor result is no success and has neither an
    [errors] nor an [error] key passes the outcome check silently: nothing
    is persisted, and the dispatcher goes on to resolve the
    [activationTemplate] kind. *)
Theorem unclassified_change_result_is_approved
    (E : Collaborators) (req : Fulfillment) (tr : list event)
    (sid creds : pyval) (info : pydict) (s : string) :
  req_type req = "change" ->
  is_downsize_request E (items (asset req)) = false ->
  get_param_value (asset req) "subscriptionId" = Ok sid ->
  get_credentials E (marketplace_id req) (configuration (asset req))
                  (connection_type (asset req)) = Ok creds ->
  change_subscription E creds (VDict ∅) sid = Ok info ->
  get_status_code E info = Ok (VStr s) ->
  py_lower s <> "success" ->
  info !! "errors" = None ->
  info !! "error" = None ->
  _check_update_response E info req tr = (Ok tt, tr)
  /\ process_request E req tr
     = (dispatched (activation_outcome E req "activationTemplate"),
        tr ++ change_calls req sid ++ [template_lookup req "activationTemplate"]).
Proof.
  intros Htype Hguard Hsid Hcred Hcall Hstatus Hne Herrs Herror.
  assert (Hcheck : forall tr0, _check_update_response E info req tr0 = (Ok tt, tr0)).
  { intros tr0.
    rewrite (_check_update_response_not_success E req info s tr0 Hstatus Hne).
    unfold dict_contains. now rewrite Herrs, Herror. }
  split; [apply Hcheck|].
  rewrite (process_request_phase E req _ _ tr (provisioning_change E req Htype)).
  rewrite change_phase_not_downsize by exact Hguard.
  rewrite _change_subscription_eval, Hsid, Hcred, Hcall, Hcheck.
  now rewrite <- app_assoc.
Qed.

Lemma unclassified_change_result_is_approved_witness :
  let info : pydict := {[ "statusCode" := VStr "PENDING" ]} in
  let E := Sample.collaborators info Sample.all_templates in
  process_request E Scenario.change_request []
  = (Ok (Some {| template_id := VStr "TL-001" |}),
     [ EvGetCredentials "MP-1" (VDict ∅) "production";
       EvVendorCall ChangeSubscription (VDict ∅) (Some (VStr "T1"));
       EvGetActivationTemplate (VDict ∅) "MP-1" "activationTemplate" ]).
Proof.
  intros info E.
  assert (Hstatus : get_status_code E info = Ok (VStr "PENDING"))
    by (vm_compute; reflexivity).
  assert (Hne : py_lower "PENDING" <> "success") by (vm_compute; discriminate).
  assert (Herrs : info !! "errors" = None) by (vm_compute; reflexivity).
  assert (Herror : info !! "error" = None) by (vm_compute; reflexivity).
  exact (proj2 (unclassified_change_result_is_approved E Scenario.change_request []
                  (VStr "T1") (VStr "api-key") info "PENDING"
                  eq_refl eq_refl eq_refl eq_refl eq_refl Hstatus Hne Herrs Herror)).
Defined.

Lemma activation_outcome_Ok (E : Collaborators) (req : Fulfillment)
    (kind : string) (response : ActivationTemplateResponse) :
  activation_outcome E req kind = Ok response ->
  exists n,
    get_activation_template E (configuration (asset req)) (marketplace_id req) kind
    = Ok (template_id response)
    /\ py_len (template_id response) = Ok (S n).
Proof.
  unfold activation_outcome.
  destruct (get_activation_template E _ _ kind) as [tid | [m | m | c a]];
    try discriminate.
  destruct (py_len tid) as [[|n] | ex] eqn:Hlen; try discriminate.
  intros [= <-]. eauto.
Qed.

(** X11.  When the dispatcher returns, it returns either [None], for a
    request type without a handler and with no call made, or a response
    whose template id is the one configured for the kind of the request
    type and has non-zero length. *)
Theorem dispatch_return_value
    (E : Collaborators) (req : Fulfillment) (tr tr' : list event)
    (r : option ActivationTemplateResponse) :
  process_request E req tr = (Ok r, tr') ->
  match r with
  | None =>
      tr' = tr
      /\ req_type req <> "purchase" /\ req_type req <> "change"
      /\ req_type req <> "suspend" /\ req_type req <> "resume"
      /\ req_type req <> "cancel"
  | Some response =>
      exists kind n,
        ((kind = "activationTemplate"
          /\ (req_type req = "purchase" \/ req_type req = "change"
              \/ req_type req = "resume"))
         \/ (kind = "suspendSubscriptionTemplate"
             /\ (req_type req = "suspend" \/ req_type req = "cancel")))
        /\ get_activation_template E (configuration (asset req))
                                   (marketplace_id req) kind
           = Ok (template_id response)
        /\ py_len (template_id response) = Ok (S n)
  end.
Proof.
  destruct (process_request_cases E req tr)
    as [[Hnone ->] | (phase & kind & r' & tr1 & Hp & Hphase & ->)].
  - intros [= <- <-]. split; [reflexivity|]. now apply provisioning_None in Hnone.
  - destruct r' as [[]|e]; [|discriminate].
    destruct (activation_outcome E req kind) as [response|ex] eqn:Hout;
      [|discriminate].
    intros [= <- <-].
    destruct (activation_outcome_Ok E req kind response Hout) as (n & Hlookup & Hlen).
    exists kind, n. split; [|split; assumption].
    exact (provisioning_kind E req phase kind Hp).
Qed.

Lemma dispatch_return_value_witness :
  let E := Sample.collaborators {[ "tenantId" := VStr "T1" ]} Sample.all_templates in
  exists kind n,
    ((kind = "activationTemplate"
      /\ (req_type Scenario.purchase_request = "purchase"
          \/ req_type Scenario.purchase_request = "change"
          \/ req_type Scenario.purchase_request = "resume"))
     \/ (kind = "suspendSubscriptionTemplate"
         /\ (req_type Scenario.purchase_request = "suspend"
             \/ req_type Scenario.purchase_request = "cancel")))
    /\ get_activation_template E (VDict ∅) "MP-1" kind = Ok (VStr "TL-001")
    /\ py_len (VStr "TL-001") = Ok (S n).
Proof.
  intros E.
  apply (dispatch_return_value E Scenario.purchase_request []
           [ EvGetCredentials "MP-1" (VDict ∅) "production";
             EvVendorCall CreateSubscription (VDict ∅) None;
             EvUpdateParameters "PR-1" (subscriptionId_params (VStr "T1"));
             EvGetActivationTemplate (VDict ∅) "MP-1" "activationTemplate" ]
           (Some {| template_id := VStr "TL-001" |})).
  vm_compute. reflexivity.
Defined.

(** ** [check_order_parameters] *)

(** X14.  [check_order_parameters] never raises [InquireRequest]: without
    the parameter it raises the AttributeError of [None.value], and with it
    the final [hasattr] test holds, so an empty value or one the pattern
    rejects returns normally; only an exception of [re.search] gets out. *)
Theorem check_order_parameters_never_inquires
    (re_search : pyval -> result bool) (req : Fulfillment) :
  (forall error_msg ps,
      check_order_parameters re_search req <> InquireRequest error_msg ps)
  /\ (get_param_by_id (asset req) "customer_admin_email" = None ->
      check_order_parameters re_search req = Raised (no_attribute VNone "value"))
  /\ (forall p,
        get_param_by_id (asset req) "customer_admin_email" = Some p ->
        (truthy (param_value p) = false ->
         check_order_parameters re_search req = Returned)
        /\ (forall matched,
              re_search (param_value p) = Ok matched ->
              check_order_parameters re_search req = Returned)
        /\ (forall e,
              truthy (param_value p) = true ->
              re_search (param_value p) = Raise e ->
              check_order_parameters re_search req = Raised e)).
Proof.
  unfold check_order_parameters, get_param_value, validate_email.
  destruct (get_param_by_id (asset req) "customer_admin_email") as [p|].
  - split; [|split; [discriminate|]].
    + intros error_msg ps.
      destruct (truthy (param_value p)); [|discriminate].
      destruct (re_search (param_value p)) as [[|]|e]; discriminate.
    + intros p' [= <-]. repeat split.
      * intros ->. reflexivity.
      * intros matched ->. now destruct (truthy (param_value p)), matched.
      * intros e -> ->. reflexivity.
  - split; [discriminate|]. split; [reflexivity | discriminate].
Qed.

Lemma check_order_parameters_never_inquires_witness :
  check_order_parameters (fun _ => Ok false) (Faulty.order_request (VStr "not-an-email"))
  = Returned
  /\ check_order_parameters (fun _ => Ok false) (Faulty.order_request (VStr ""))
     = Returned.
Proof.
  split.
  - apply (proj1 (proj2 (proj2 (proj2 (check_order_parameters_never_inquires
                                         (fun _ => Ok false)
                                         (Faulty.order_request (VStr "not-an-email"))))
                          {| param_id := "customer_admin_email";
                             param_value := VStr "not-an-email" |} eq_refl))
             false).
    reflexivity.
  - apply (proj1 (proj2 (proj2 (check_order_parameters_never_inquires
                                  (fun _ => Ok false)
                                  (Faulty.order_request (VStr ""))))
                   {| param_id := "customer_admin_email"; param_value := VStr "" |}
                   eq_refl)).
    reflexivity.
Defined.

(** ** The class [Cancel] *)

Section CancelProcessor.

Variable get_basic_value : pyval -> string -> result pyval.

Lemma loop_body_passes acc param :
  Cancel.passes get_basic_value param -> Cancel.loop_body get_basic_value acc param = Ok acc.
Proof.
  intros (phase & Hphase & [Hno | (name & Hname & Hno)]);
    unfold Cancel.loop_body; rewrite Hphase.
  - now rewrite Hno.
  - destruct (py_eq_str phase "fulfillment"); [|reflexivity].
    now rewrite Hname, Hno.
Qed.

Lemma loop_body_selects acc param v :
  Cancel.selects get_basic_value param v -> Cancel.loop_body get_basic_value acc param = Ok (Some v).
Proof.
  intros (phase & name & Hphase & Hp & Hname & Hn & Hvalue).
  unfold Cancel.loop_body.
  now rewrite Hphase, Hp, Hname, Hn, Hvalue.
Qed.

Lemma loop_passes ps acc :
  Forall (Cancel.passes get_basic_value) ps -> Cancel.loop get_basic_value ps acc = Ok acc.
Proof.
  induction 1 as [|param ps Hparam _ IH]; [reflexivity|].
  simpl. now rewrite (loop_body_passes acc param Hparam).
Qed.

Lemma loop_app xs ys acc :
  Cancel.loop get_basic_value (xs ++ ys) acc
  = match Cancel.loop get_basic_value xs acc with
    | Ok acc' => Cancel.loop get_basic_value ys acc'
    | Raise e => Raise e
    end.
Proof.
  revert acc. induction xs as [|x xs IH]; intros acc; [reflexivity|].
  simpl.
  destruct (Cancel.loop_body get_basic_value acc x); [apply IH | reflexivity].
Qed.

Lemma loop_readable ps acc :
  Forall (fun param => Cancel.passes get_basic_value param \/ exists v, Cancel.selects get_basic_value param v) ps ->
  exists acc', Cancel.loop get_basic_value ps acc = Ok acc'.
Proof.
  intros Hps. revert acc.
  induction Hps as [|param ps Hparam _ IH]; intros acc; [now exists acc|].
  simpl.
  destruct Hparam as [Hpass | [v Hsel]].
  - rewrite (loop_body_passes acc param Hpass). apply IH.
  - rewrite (loop_body_selects acc param v Hsel). apply IH.
Qed.

End CancelProcessor.

(** X15.  The loop of [Cancel.process_request] leaves in
    [external_subscription_id] the value of the last fulfillment parameter
    named [subscriptionId], whatever was found before and whatever other
    parameters follow. *)
Theorem cancel_loop_keeps_last_subscriptionId
    (get_basic_value : pyval -> string -> result pyval)
    (before after : list pyval) (param v : pyval) (start : option pyval) :
  Forall (fun q => Cancel.passes get_basic_value q
                   \/ exists w, Cancel.selects get_basic_value q w) before ->
  Cancel.selects get_basic_value param v ->
  Forall (Cancel.passes get_basic_value) after ->
  Cancel.loop get_basic_value (before ++ param :: after) start = Ok (Some v).
Proof.
  intros Hbefore Hsel Hafter.
  rewrite loop_app.
  destruct (loop_readable get_basic_value before start Hbefore) as [acc ->].
  simpl.
  rewrite (loop_body_selects get_basic_value acc param v Hsel).
  now apply loop_passes.
Qed.

Lemma cancel_loop_keeps_last_subscriptionId_witness :
  Cancel.loop Cancel.sample_get_basic_value
    ([ Cancel.sample_param "fulfillment" "subscriptionId" "OLD";
       Cancel.sample_param "ordering" "subscriptionId" "ORDERED" ]
     ++ Cancel.sample_param "fulfillment" "subscriptionId" "T1"
     :: [ Cancel.sample_param "fulfillment" "licenseKey" "K" ])
    None
  = Ok (Some (VStr "T1")).
Proof.
  apply cancel_loop_keeps_last_subscriptionId.
  - constructor; [|constructor; [|constructor]].
    + right. exists (VStr "OLD"), (VStr "fulfillment"), (VStr "subscriptionId").
      repeat split; vm_compute; reflexivity.
    + left. exists (VStr "ordering"). split; [vm_compute; reflexivity|].
      left. reflexivity.
  - exists (VStr "fulfillment"), (VStr "subscriptionId").
    repeat split; vm_compute; reflexivity.
  - constructor; [|constructor].
    exists (VStr "fulfillment"). split; [vm_compute; reflexivity|].
    right. exists (VStr "licenseKey"). split; vm_compute; reflexivity.
Defined.

(** X16.  [Cancel.process_request] reads its request for the id only: the
    parameters are looked up in the string ['asset'], so two requests with
    the same id lookup behave the same. *)
Theorem cancel_processor_reads_only_the_request_id
    (get_basic_value : pyval -> string -> result pyval)
    (py_iter : pyval -> result (list pyval)) (ACTIVATION_TEMPLATE : pyval)
    (approve_post : pyval -> pydict -> result pyval) (request request' : pyval) :
  get_basic_value request "id" = get_basic_value request' "id" ->
  Cancel.process_request get_basic_value py_iter ACTIVATION_TEMPLATE approve_post request
  = Cancel.process_request get_basic_value py_iter ACTIVATION_TEMPLATE approve_post request'.
Proof. intros Hid. unfold Cancel.process_request. now rewrite Hid. Qed.

Lemma cancel_processor_reads_only_the_request_id_witness :
  let run := Cancel.process_request Cancel.sample_get_basic_value Cancel.sample_iter
               (VStr "TL-002") (fun _ _ => Ok VNone) in
  run (VDict (<[ "id" := VStr "PR-9" ]>
                {[ "asset" := VDict {[ "params" := VList [] ]} ]}))
  = run (VDict {[ "id" := VStr "PR-9" ]}).
Proof.
  intros run.
  apply cancel_processor_reads_only_the_request_id.
  vm_compute. reflexivity.
Defined.

(** X17.  [Cancel.process_request] either raises before the approval with
    nothing posted, or posts exactly one approval, for the id of the
    request and with the payload [{template_id: ACTIVATION_TEMPLATE}],
    whatever the loop found. *)
Theorem cancel_processor_approves_once_or_raises
    (get_basic_value : pyval -> string -> result pyval)
    (py_iter : pyval -> result (list pyval)) (ACTIVATION_TEMPLATE : pyval)
    (approve_post : pyval -> pydict -> result pyval) (request : pyval)
    (r : result unit) (log : list Cancel.approval) :
  Cancel.process_request get_basic_value py_iter ACTIVATION_TEMPLATE approve_post request
  = (r, log) ->
  (log = [] /\ exists e, r = Raise e)
  \/ (exists id,
         get_basic_value request "id" = Ok id
         /\ log = [ {| Cancel.approved_request := id;
                       Cancel.approval_payload :=
                         {[ "template_id" := ACTIVATION_TEMPLATE ]} |} ]
         /\ r = match approve_post id {[ "template_id" := ACTIVATION_TEMPLATE ]} with
                | Ok _ => Ok tt
                | Raise e => Raise e
                end).
Proof.
  unfold Cancel.process_request.
  destruct (get_basic_value (VStr "asset") "params") as [params_value|e];
    [|intros [= <- <-]; eauto].
  destruct (py_iter params_value) as [ps|e]; [|intros [= <- <-]; eauto].
  destruct (Cancel.loop get_basic_value ps None) as [found|e];
    [|intros [= <- <-]; eauto].
  destruct (get_basic_value request "id") as [id|e]; [|intros [= <- <-]; eauto].
  intros [= <- <-]. right. exists id. auto.
Qed.

Lemma cancel_processor_approves_once_or_raises_witness :
  let payload : pydict := {[ "template_id" := VStr "TL-002" ]} in
  exists id,
    Cancel.sample_get_basic_value (VDict {[ "id" := VStr "PR-9" ]}) "id" = Ok id
    /\ [ {| Cancel.approved_request := VStr "PR-9"; Cancel.approval_payload := payload |} ]
       = [ {| Cancel.approved_request := id; Cancel.approval_payload := payload |} ].
Proof.
  intros payload.
  destruct (cancel_processor_approves_once_or_raises
              Cancel.sample_get_basic_value Cancel.sample_iter (VStr "TL-002")
              (fun _ _ => Ok VNone) (VDict {[ "id" := VStr "PR-9" ]})
              (Ok tt)
              [ {| Cancel.approved_request := VStr "PR-9";
                   Cancel.approval_payload := payload |} ])
    as [[Hnil _] | (id & Hid & Hlog & _)].
  - vm_compute. reflexivity.
  - discriminate Hnil.
  - exists id. split; assumption.
Defined.
